(** * Output-file management of Fooocus-API: [fooocusapi/utils/file_utils.py]

    A shallow embedding of the module that stores, deletes, uploads and
    reads back generated images, together with the properties its
    specification states about it.

    Python [str] values are modelled as [string] (sequences of bytes), the
    local file system as a finite map from path spellings to nodes, and every
    function of the module as a computation in a state-and-exception monad
    over a [World] that also records each interaction with the environment
    (file system, clock, object store, logger) in a trace.  Paths follow the
    POSIX flavour of [os.path] and [pathlib]. *)

From Stdlib Require Import String Ascii List Arith NArith Lia Bool.
From stdpp Require Import base option gmap strings list fin_maps.

Import ListNotations.
Local Open Scope string_scope.
Local Open Scope list_scope.

(** ** Python string operations *)

Module PyStr.

(** [s.split(c)] for a one-character separator [c]. *)
Fixpoint split (c : ascii) (s : string) : list string :=
  match s with
  | EmptyString => [EmptyString]
  | String a s' =>
      if Ascii.eqb a c then EmptyString :: split c s'
      else match split c s' with
           | [] => [String a EmptyString]
           | h :: t => String a h :: t
           end
  end.

(** [sep.join(l)]. *)
Fixpoint join (sep : string) (l : list string) : string :=
  match l with
  | [] => EmptyString
  | [x] => x
  | x :: (_ :: _) as t => x +:+ sep +:+ join sep t
  end.

(** [l[-1]] on a list of strings; [split] never returns an empty list, so the
    default is never used by the module. *)
Definition last_item (l : list string) : string := List.last l EmptyString.

(** [l[-n:]] for [n > 0]. *)
Definition slice_last {A} (n : nat) (l : list A) : list A :=
  skipn (length l - n) l.

(** [c in s]. *)
Fixpoint contains (c : ascii) (s : string) : bool :=
  match s with
  | EmptyString => false
  | String a s' => Ascii.eqb a c || contains c s'
  end.

Definition is_upper (a : ascii) : bool :=
  (65 <=? nat_of_ascii a)%nat && (nat_of_ascii a <=? 90)%nat.

Definition is_lower (a : ascii) : bool :=
  (97 <=? nat_of_ascii a)%nat && (nat_of_ascii a <=? 122)%nat.

Definition lower_char (a : ascii) : ascii :=
  if is_upper a then ascii_of_nat (nat_of_ascii a + 32) else a.

Definition upper_char (a : ascii) : ascii :=
  if is_lower a then ascii_of_nat (nat_of_ascii a - 32) else a.

Fixpoint map_chars (f : ascii -> ascii) (s : string) : string :=
  match s with
  | EmptyString => EmptyString
  | String a s' => String (f a) (map_chars f s')
  end.

(** [s.lower()] and [s.upper()] on the ASCII letters; other bytes are kept. *)
Definition lower : string -> string := map_chars lower_char.
Definition upper : string -> string := map_chars upper_char.

(** [s.startswith(p)]. *)
Definition startswith (p s : string) : bool := String.prefix p s.

(** [s.endswith(c)] for a one-character suffix. *)
Fixpoint endswith_char (c : ascii) (s : string) : bool :=
  match s with
  | EmptyString => false
  | String a EmptyString => Ascii.eqb a c
  | String _ s' => endswith_char c s'
  end.

(** [x in l] for a list of strings. *)
Definition mem (x : string) (l : list string) : bool :=
  existsb (String.eqb x) l.

(** An f-string field of type [Optional[str]]: [None] prints as [None]. *)
Definition fmt_opt (o : option string) : string :=
  match o with
  | Some s => s
  | None => "None"
  end.

End PyStr.

(** ** [os.path] and [pathlib] on POSIX *)

Module PosixPath.

Definition slash : ascii := "/"%char.

(** [os.path.join(a, b)]. *)
Definition join (a b : string) : string :=
  if PyStr.startswith "/" b then b
  else if (String.eqb a "") || PyStr.endswith_char slash a then a +:+ b
  else a +:+ "/" +:+ b.

(** [posixpath.splitroot]: the root is a single slash, exactly two slashes,
    or empty. *)
Definition splitroot (p : string) : string * string :=
  match p with
  | String a r1 =>
      if Ascii.eqb a slash then
        match r1 with
        | String b r2 =>
            if Ascii.eqb b slash then
              match r2 with
              | String c _ =>
                  if Ascii.eqb c slash then ("/", r1) else ("//", r2)
              | EmptyString => ("//", r2)
              end
            else ("/", r1)
        | EmptyString => ("/", r1)
        end
      else ("", p)
  | EmptyString => ("", p)
  end.

Definition kept_part (x : string) : bool :=
  negb (String.eqb x "") && negb (String.eqb x ".").

(** [Path(p).as_posix()]: the root followed by the parts of the path that
    are neither empty nor a single dot; the empty path prints as a dot. *)
Definition as_posix (p : string) : string :=
  let '(root, rel) := splitroot p in
  let s := root +:+ PyStr.join "/" (List.filter kept_part (PyStr.split slash rel)) in
  if String.eqb s "" then "." else s.

(** [os.path.dirname(p)], computed on the reversed character list: the head
    is everything up to and including the last slash, stripped of trailing
    slashes unless it consists of slashes only. *)
Fixpoint rstrip_slash_rev (r : list ascii) : list ascii :=
  match r with
  | a :: r' => if Ascii.eqb a slash then rstrip_slash_rev r' else r
  | [] => []
  end.

Fixpoint drop_last_part_rev (r : list ascii) : list ascii :=
  match r with
  | a :: r' => if Ascii.eqb a slash then r else drop_last_part_rev r'
  | [] => []
  end.

Definition dirname (p : string) : string :=
  let head := drop_last_part_rev (rev (list_ascii_of_string p)) in
  match rstrip_slash_rev head with
  | [] => string_of_list_ascii (rev head)
  | stripped => string_of_list_ascii (rev stripped)
  end.

Fixpoint last_part_rev (r : list ascii) : list ascii :=
  match r with
  | a :: r' => if Ascii.eqb a slash then [] else a :: last_part_rev r'
  | [] => []
  end.

(** [shutil._basename]: the base name after stripping trailing slashes. *)
Definition shutil_basename (p : string) : string :=
  string_of_list_ascii
    (rev (last_part_rev (rstrip_slash_rev (rev (list_ascii_of_string p))))).

(** A path the operating system accepts: no NUL character. *)
Definition path_ok (p : string) : bool := negb (PyStr.contains "000"%char p).

End PosixPath.

Global Arguments PyStr.mem : simpl never.
Global Arguments PyStr.lower : simpl never.
Global Arguments PyStr.upper : simpl never.
Global Arguments PyStr.last_item : simpl never.
Global Arguments PosixPath.join : simpl never.
Global Arguments PosixPath.as_posix : simpl never.
Global Arguments PosixPath.dirname : simpl never.
Global Arguments PosixPath.path_ok : simpl never.

(** ** [base64.b64encode] *)

Module Base64.

Definition alphabet : string :=
  "ABCDEFGHIJKLMNOPQRSTUVWXYZabcdefghijklmnopqrstuvwxyz0123456789+/".

Definition sextet (n : nat) : ascii :=
  match String.get n alphabet with
  | Some c => c
  | None => "="%char
  end.

Definition code (b : Byte.byte) : nat := N.to_nat (Byte.to_N b).

(** Three bytes give four characters; a final group of one or two bytes is
    padded with equal signs. *)
Fixpoint b64encode (l : list Byte.byte) : string :=
  match l with
  | [] => ""
  | [a] =>
      String (sextet (code a / 4))
        (String (sextet (code a mod 4 * 16)) "==")
  | [a; b] =>
      String (sextet (code a / 4))
        (String (sextet (code a mod 4 * 16 + code b / 16))
           (String (sextet (code b mod 16 * 4)) "="))
  | a :: b :: c :: rest =>
      String (sextet (code a / 4))
        (String (sextet (code a mod 4 * 16 + code b / 16))
           (String (sextet (code b mod 16 * 4 + code c / 64))
              (String (sextet (code c mod 64)) (b64encode rest))))
  end.

End Base64.

(** ** [datetime.datetime.now().strftime("%Y-%m-%d")] *)

Record Date := mkDate { year : N; month : N; day : N }.

Definition digit (n : N) : ascii := ascii_of_N (48 + n mod 10).

(** Years are printed on four digits, months and days on two
    ([datetime] years range over 1..9999). *)
Definition strftime_ymd (d : Date) : string :=
  (String (digit (year d / 1000)) (String (digit (year d / 100))
    (String (digit (year d / 10)) (String (digit (year d))
      (String "-" (String (digit (month d / 10)) (String (digit (month d))
        (String "-" (String (digit (day d / 10)) (String (digit (day d))
          EmptyString))))))))))%N.

Global Arguments strftime_ymd : simpl never.

(** ** The environment of the module *)

(** Exception classes that the module and its libraries raise. *)
Inductive ExnClass :=
| Exception_
| OSError
| ValueError
| KeyError
| UnidentifiedImageError
| NoCredentialsError
| ClientError
| S3UploadFailedError.

Inductive exn := Raised (cls : ExnClass) (msg : string).

Definition exn_class (e : exn) : ExnClass := let 'Raised c _ := e in c.
Definition exn_str (e : exn) : string := let 'Raised _ m := e in m.

Global Instance ExnClass_eq_dec : EqDecision ExnClass.
Proof. solve_decision. Defined.

(** [isinstance(e, OSError)]: Pillow's [UnidentifiedImageError] derives from
    [OSError]. *)
Definition is_OSError (e : exn) : bool :=
  match exn_class e with
  | OSError | UnidentifiedImageError => true
  | _ => false
  end.

(** Every class above derives from [Exception]. *)
Definition is_Exception (e : exn) : bool := true.

Definition is_upload_error (e : exn) : bool :=
  match exn_class e with
  | NoCredentialsError | ClientError => true
  | _ => false
  end.

(** What a path can hold: a regular file or a directory.  Symbolic links
    and special files (FIFOs, sockets, devices) are outside the model. *)
Inductive Node :=
| File (content : list Byte.byte)
| Dir.

(** [infra_settings], an instance of [InfraSettings] in [configs/config.py]. *)
Record InfraSettings := mkInfra {
  MINIO_ACCESS_KEY : option string;
  MINIO_SECRET_KEY : option string;
  URL_S3 : option string;
  BUCKET_NAME : option string
}.

Inductive LogLevel := Info | Warn | Error.

(** Interactions with the environment, in the order they happen. *)
Inductive Event :=
| EvClock
| EvExists (p : string)
| EvIsFile (p : string)
| EvIsDir (p : string)
| EvMakedirs (p : string)
| EvRename (src dst : string)
| EvRemove (p : string)
| EvRead (p : string)
| EvUpload (file_path : string) (bucket : option string) (key : string)
| EvLog (lvl : LogLevel) (msg : string).

Record World := mkWorld {
  output_dir : string;                    (* module global *)
  infra_settings : InfraSettings;         (* module global *)
  today : Date;                           (* the clock *)
  fs : gmap string Node;                  (* local file system *)
  undeletable : gset string;              (* paths whose removal is denied *)
  s3_fault : option exn;                  (* failure the object store answers with *)
  s3_objects : gmap string (list Byte.byte);  (* objects of the bucket, by key *)
  trace : list Event
}.

Definition set_fs (f : gmap string Node) (w : World) : World :=
  mkWorld (output_dir w) (infra_settings w) (today w) f (undeletable w)
    (s3_fault w) (s3_objects w) (trace w).

Definition set_s3_objects (o : gmap string (list Byte.byte)) (w : World) : World :=
  mkWorld (output_dir w) (infra_settings w) (today w) (fs w) (undeletable w)
    (s3_fault w) o (trace w).

Definition emit (e : Event) (w : World) : World :=
  mkWorld (output_dir w) (infra_settings w) (today w) (fs w) (undeletable w)
    (s3_fault w) (s3_objects w) (trace w ++ [e]).

(** ** A state and exception monad *)

Definition M (A : Type) : Type := World -> (exn + A) * World.

Definition ret {A} (a : A) : M A := fun w => (inr a, w).

Definition raise {A} (e : exn) : M A := fun w => (inl e, w).

Definition bind {A B} (m : M A) (k : A -> M B) : M B :=
  fun w =>
    match m w with
    | (inr a, w') => k a w'
    | (inl e, w') => (inl e, w')
    end.

(** [try: m  except <classes> as e: h e]. *)
Definition try_except {A} (m : M A) (catches : exn -> bool) (h : exn -> M A) : M A :=
  fun w =>
    match m w with
    | (inl e, w') => if catches e then h e w' else (inl e, w')
    | r => r
    end.

Definition gets {A} (f : World -> A) : M A := fun w => (inr (f w), w).

Definition tell (e : Event) : M unit := fun w => (inr tt, emit e w).

Declare Scope py_scope.
Delimit Scope py_scope with py.
Notation "'let!' x := m 'in' k" := (bind m (fun x => k))
  (at level 10, x name, m at level 100, k at level 200) : py_scope.
Notation "'run' m 'then' k" := (bind m (fun _ => k))
  (at level 10, m at level 100, k at level 200) : py_scope.
Local Open Scope py_scope.

(** ** Primitives of the environment *)

Definition lookup_node (p : string) (w : World) : option Node := fs w !! p.

Definition is_file_node (o : option Node) : bool :=
  match o with Some (File _) => true | _ => false end.

Definition is_dir_node (o : option Node) : bool :=
  match o with Some Dir => true | _ => false end.

Definition is_some_node (o : option Node) : bool :=
  match o with Some _ => true | None => false end.

(** [os.path.exists], [os.path.isfile], [os.path.isdir]: a path the system
    rejects is reported as absent, not raised. *)
Definition os_path_exists (p : string) : M bool :=
  run tell (EvExists p) then
  gets (fun w => PosixPath.path_ok p && is_some_node (lookup_node p w)).

Definition os_path_isfile (p : string) : M bool :=
  run tell (EvIsFile p) then
  gets (fun w => PosixPath.path_ok p && is_file_node (lookup_node p w)).

Definition os_path_isdir (p : string) : M bool :=
  run tell (EvIsDir p) then
  gets (fun w => PosixPath.path_ok p && is_dir_node (lookup_node p w)).

(** [os.makedirs(p, exist_ok=True)]; only the node of [p] itself is
    recorded, its ancestors are left implicit. *)
Definition os_makedirs (p : string) : M unit :=
  run tell (EvMakedirs p) then
  fun w =>
    if negb (PosixPath.path_ok p) then (inl (Raised ValueError "embedded null byte"), w)
    else if String.eqb p "" then (inl (Raised OSError "No such file or directory"), w)
    else match lookup_node p w with
         | Some (File _) => (inl (Raised OSError "File exists"), w)
         | Some Dir => (inr tt, w)
         | None => (inr tt, set_fs (<[p := Dir]> (fs w)) w)
         end.

(** [os.rename(src, dst)]. *)
Definition os_rename (src dst : string) : M unit :=
  run tell (EvRename src dst) then
  fun w =>
    if negb (PosixPath.path_ok src && PosixPath.path_ok dst)
    then (inl (Raised ValueError "embedded null byte"), w)
    else match lookup_node src w, lookup_node dst w with
         | None, _ => (inl (Raised OSError "No such file or directory"), w)
         | Some (File _), Some Dir => (inl (Raised OSError "Is a directory"), w)
         | Some Dir, Some (File _) => (inl (Raised OSError "Not a directory"), w)
         | Some n, _ => (inr tt, set_fs (<[dst := n]> (delete src (fs w))) w)
         end.

(** [shutil.move(src, dst)] on one device: into [dst] when it is a
    directory, onto [dst] otherwise. *)
Definition shutil_move (src dst : string) : M unit :=
  let! d := os_path_isdir dst in
  if d then
    if String.eqb src dst then os_rename src dst
    else
      let real_dst := PosixPath.join dst (PosixPath.shutil_basename src) in
      let! e := os_path_exists real_dst in
      if e then raise (Raised OSError "Destination path already exists")
      else os_rename src real_dst
  else os_rename src dst.

(** [os.remove(p)]. *)
Definition os_remove (p : string) : M unit :=
  run tell (EvRemove p) then
  fun w =>
    if negb (PosixPath.path_ok p) then (inl (Raised ValueError "embedded null byte"), w)
    else if bool_decide (p ∈ undeletable w) then (inl (Raised OSError "Permission denied"), w)
    else match lookup_node p w with
         | Some (File _) => (inr tt, set_fs (delete p (fs w)) w)
         | Some Dir => (inl (Raised OSError "Is a directory"), w)
         | None => (inl (Raised OSError "No such file or directory"), w)
         end.

Definition logger (lvl : LogLevel) (msg : string) : M unit := tell (EvLog lvl msg).

Definition now_strftime : M string :=
  run tell EvClock then gets (fun w => strftime_ymd (today w)).

(** [s3_client.upload_file(Filename, Bucket, Key)]: reads the local file and
    stores it under the key, unless the object store answers with a fault. *)
Definition s3_upload_file (file_path : string) (bucket : option string) (key : string) : M unit :=
  run tell (EvUpload file_path bucket key) then
  fun w =>
    match lookup_node file_path w with
    | Some (File c) =>
        match s3_fault w with
        | Some e => (inl e, w)
        | None => (inr tt, set_s3_objects (<[key := c]> (s3_objects w)) w)
        end
    | _ => (inl (Raised OSError "No such file or directory"), w)
    end.

(** Pillow: decoding the bytes of a file and encoding an image under a
    format name. *)
Class PIL := {
  Image : Type;
  decode_image : list Byte.byte -> option Image;
  encode_image : Image -> string -> exn + list Byte.byte
}.

Section WithPIL.
Context `{pil : PIL}.

(** [Image.open(p)]. *)
Definition Image_open (p : string) : M Image :=
  run tell (EvRead p) then
  fun w =>
    match lookup_node p w with
    | Some (File c) =>
        match decode_image c with
        | Some img => (inr img, w)
        | None => (inl (Raised UnidentifiedImageError "cannot identify image file"), w)
        end
    | _ => (inl (Raised OSError "No such file or directory"), w)
    end.

(** [img.save(buffer, format=fmt)] followed by [buffer.getvalue()]. *)
Definition Image_save (img : Image) (fmt : string) : M (list Byte.byte) :=
  fun w => (encode_image img fmt, w).

End WithPIL.

(** ** The module [file_utils] *)

Definition STATIC_SERVER_BASE : string := "http://127.0.0.1:8888/files/".

(** The first argument of [save_output_file]: [np.ndarray | str]. *)
Inductive ImgArg :=
| NdArray (pixels : list nat)
| PathStr (path : string).

(** [not os.path.exists(p) or not os.path.isfile(p)], evaluated left to
    right. *)
Definition absent_or_not_file (p : string) : M bool :=
  let! e := os_path_exists p in
  if negb e then ret true
  else let! f := os_path_isfile p in ret (negb f).

Definition save_output_file (img : ImgArg) (image_name extension : string) : M string :=
  let! date_string := now_strftime in
  let filename := PosixPath.join date_string (image_name +:+ "." +:+ extension) in
  let! root := gets output_dir in
  let file_path := PosixPath.join root filename in
  run os_makedirs (PosixPath.dirname file_path) then
  try_except
    (run match img with
         | PathStr src => shutil_move src file_path
         | NdArray _ => ret tt
         end then
     ret (PosixPath.as_posix file_path))
    is_Exception
    (fun _ => raise (Raised Exception_ "")).

Definition delete_output_file (filename : string) : M bool :=
  let! root := gets output_dir in
  let file_path := PosixPath.join root filename in
  let! missing := absent_or_not_file file_path in
  run (if missing
       then logger Warn ("[Fooocus API] " +:+ filename +:+ " not exists or is not a file")
       else ret tt) then
  try_except
    (run os_remove file_path then
     run logger Info ("[Fooocus API] Delete output file: " +:+ filename) then
     ret true)
    is_OSError
    (fun _ =>
       run logger Error ("[Fooocus API] Delete output file failed: " +:+ filename) then
       ret false).

Definition upload_to_minio (filename : string) : M string :=
  let! cfg := gets infra_settings in
  let! current_date := now_strftime in
  let base_name := PyStr.last_item (PyStr.split "/" filename) in
  let s3_key := current_date +:+ "/" +:+ base_name in
  let! root := gets output_dir in
  let file_path := PosixPath.join root filename in
  try_except
    (run s3_upload_file file_path (BUCKET_NAME cfg) s3_key then
     run logger Info ("File " +:+ filename +:+ " has been successfully uploaded to MinIO") then
     ret (PyStr.fmt_opt (URL_S3 cfg) +:+ "/" +:+ s3_key))
    is_upload_error
    (fun e =>
       run logger Error ("Error when uploading to MinIO: " +:+ exn_str e) then
       raise e).

Section ReadBack.
Context `{pil : PIL}.

Definition output_file_to_base64img (filename : option string) : M (option string) :=
  match filename with
  | None => ret None
  | Some filename =>
      let! root := gets output_dir in
      let file_path := PosixPath.join root filename in
      let! missing := absent_or_not_file file_path in
      if missing then ret None
      else
        let ext := PyStr.last_item (PyStr.split "." filename) in
        let ext :=
          if negb (PyStr.mem (PyStr.lower ext) ["png"; "jpg"; "webp"; "jpeg"])
          then "png" else ext in
        let! img := Image_open file_path in
        let! byte_data := Image_save img (PyStr.upper ext) in
        let base64_str := Base64.b64encode byte_data in
        ret (Some ("data:image/" +:+ ext +:+ ";base64," +:+ base64_str))
  end.

Definition output_file_to_bytesimg (filename : option string) : M (option (list Byte.byte)) :=
  match filename with
  | None => ret None
  | Some filename =>
      let! root := gets output_dir in
      let file_path := PosixPath.join root filename in
      let! missing := absent_or_not_file file_path in
      if missing then ret None
      else
        let! img := Image_open file_path in
        let! byte_data := Image_save img "PNG" in
        ret (Some byte_data)
  end.

End ReadBack.

Definition get_file_serve_url (filename : option string) : M (option string) :=
  match filename with
  | None => ret None
  | Some filename =>
      ret (Some (STATIC_SERVER_BASE +:+
                 PyStr.join "/" (PyStr.slice_last 2 (PyStr.split "/" filename))))
  end.

Definition get_file_s3_url (filename : option string) : M (option string) :=
  match filename with
  | None => ret None
  | Some filename =>
      let! current_date := now_strftime in
      let base_name := PyStr.last_item (PyStr.split "/" filename) in
      let s3_key := current_date +:+ "/" +:+ base_name in
      let! cfg := gets infra_settings in
      ret (Some (PyStr.fmt_opt (URL_S3 cfg) +:+ "/" +:+ s3_key))
  end.

(** ** Vocabulary of the specification *)

(** The last two items of a list, or the whole list when it is shorter. *)
Definition last_two {A} (l : list A) : list A :=
  match rev l with
  | b :: d :: _ => [d; b]
  | r => rev r
  end.

(** A base name or an extension that stays inside one path segment. *)
Definition no_slash (s : string) : bool := negb (PyStr.contains "/" s).

Definition plain_name (s : string) : bool :=
  negb (String.eqb s "") && no_slash s.

(** The shape of [output_dir], the result of [os.path.abspath]: a single
    leading slash followed by one or more non-empty parts, none of them a
    single dot. *)
Definition abs_normal (p : string) : bool :=
  match PyStr.split "/" p with
  | "" :: (_ :: _) as parts => forallb PosixPath.kept_part parts
  | _ => false
  end.

(** The path a file name resolves to. *)
Definition local_path (w : World) (filename : string) : string :=
  PosixPath.join (output_dir w) filename.

(** The path resolves to an existing regular file. *)
Definition resolves_to_file (w : World) (filename : string) : bool :=
  PosixPath.path_ok (local_path w filename) &&
  is_file_node (lookup_node (local_path w filename) w).

(** The last event of a trace. *)
Definition last_event (w : World) : option Event := List.last (map Some (trace w)) None.

(** ** A small codec and sample worlds, for closed examples *)

(** An image is its bytes; the empty file is not an image; the encoder knows
    the format names PNG, JPEG and WEBP, the names under which Pillow
    registers these formats (jpg is a file extension there, not a format
    name). *)
Definition sample_pil : PIL := {|
  Image := list Byte.byte;
  decode_image c := match c with [] => None | _ => Some c end;
  encode_image img fmt :=
    if PyStr.mem fmt ["PNG"; "JPEG"; "WEBP"] then inr img
    else inl (Raised KeyError fmt)
|}.

Definition sample_settings : InfraSettings :=
  mkInfra (Some "minio") (Some "secret") (Some "http://minio:9000") (Some "images").

(** An empty output directory on 2024-03-22. *)
Definition world_empty : World :=
  mkWorld "/app/outputs/files" sample_settings (mkDate 2024 3 22) ∅ ∅ None ∅ [].

Definition sample_bytes : list Byte.byte := [Byte.x01; Byte.x02; Byte.x03].

(** The same with one stored image, written the day before. *)
Definition world_one_file : World :=
  set_fs {[ "/app/outputs/files/2024-03-21/render1.png" := File sample_bytes ]}
    world_empty.

(** An empty output directory and a temporary file handed over by the
    generation pipeline. *)
Definition world_tmp_file : World :=
  set_fs {[ "/tmp/render.png" := File sample_bytes ]} world_empty.


(** ** The output root, computed when the module is imported *)

Module OsPath.

(** [os.path.isabs(p)]. *)
Definition isabs (p : string) : bool := PyStr.startswith "/" p.

(** [os.path.join(a, *ps)]. *)
Definition join_all (a : string) (ps : list string) : string :=
  fold_left PosixPath.join ps a.

(** One round of the loop of [os.path.normpath]; the components kept so far
    are held in reverse, the last one first. *)
Definition normpath_step (rooted : bool) (kept_rev : list string) (comp : string)
  : list string :=
  if String.eqb comp "" || String.eqb comp "." then kept_rev
  else if negb (String.eqb comp "..")
          || (negb rooted && match kept_rev with [] => true | _ => false end)
          || match kept_rev with top :: _ => String.eqb top ".." | [] => false end
       then comp :: kept_rev
       else match kept_rev with
            | _ :: rest => rest
            | [] => []
            end.

(** [os.path.normpath(p)]. *)
Definition normpath (p : string) : string :=
  if String.eqb p "" then "."
  else
    let initial_slashes :=
      if PyStr.startswith "/" p
      then if PyStr.startswith "//" p && negb (PyStr.startswith "///" p)
           then "//" else "/"
      else "" in
    let rooted := negb (String.eqb initial_slashes "") in
    let comps := rev (fold_left (normpath_step rooted) (PyStr.split "/" p) []) in
    let path := initial_slashes +:+ PyStr.join "/" comps in
    if String.eqb path "" then "." else path.

(** [os.path.abspath(p)], with the working directory [cwd]. *)
Definition abspath (cwd p : string) : string :=
  normpath (if isabs p then p else PosixPath.join cwd p).

End OsPath.

(** [output_dir] as the module computes it from its own file name. *)
Definition compute_output_dir (cwd module_file : string) : string :=
  OsPath.abspath cwd
    (OsPath.join_all (PosixPath.dirname module_file) ["../.."; "outputs"; "files"]).

Definition set_output_dir (root : string) (w : World) : World :=
  mkWorld root (infra_settings w) (today w) (fs w) (undeletable w)
    (s3_fault w) (s3_objects w) (trace w).

(** The statements the module runs when it is imported. *)
Definition import_module (cwd module_file : string) : M unit :=
  let root := compute_output_dir cwd module_file in
  run (fun w => (inr tt, set_output_dir root w)) then
  os_makedirs root.

(** ** Vocabulary of the further properties *)


Definition stored_path (w : World) (name ext : string) : string :=
  output_dir w +:+ "/" +:+ strftime_ymd (today w) +:+ "/" +:+ name +:+ "." +:+ ext.

(** Everything in a world but its files and its trace. *)
Definition same_env (w w' : World) : Prop :=
  output_dir w' = output_dir w /\ infra_settings w' = infra_settings w /\
  today w' = today w /\ undeletable w' = undeletable w /\
  s3_fault w' = s3_fault w /\ s3_objects w' = s3_objects w.

(** A date as [datetime] has it. *)
Definition valid_date (d : Date) : Prop :=
  (year d < 10000 /\ month d < 100 /\ day d < 100)%N.

(** A directory or file name: not empty, no slash, neither dot nor dot-dot. *)
Definition plain_part (s : string) : bool :=
  PosixPath.kept_part s && no_slash s && negb (String.eqb s "..").

(** Two stored files with the same base name, written on different days. *)
Definition world_two_files : World :=
  set_fs {[ "/app/outputs/files/2024-03-20/a.png" := File [Byte.x01];
            "/app/outputs/files/2024-03-21/a.png" := File [Byte.x02; Byte.x03] ]}
    world_empty.

(** The scenario of the specification, on a temporary file: store, read
    back, delete, read back again. *)
Definition store_read_delete_read : M (string * option string * bool * option string) :=
  let! p := save_output_file (PathStr "/tmp/render.png") "render1" "png" in
  let! before := output_file_to_base64img (pil := sample_pil) (Some p) in
  let! deleted := delete_output_file p in
  let! after := output_file_to_base64img (pil := sample_pil) (Some p) in
  ret (p, before, deleted, after).

(** Unfold the monad and the primitives, then project the updated worlds. *)
Ltac unfold_run :=
  cbv [bind ret raise gets tell try_except logger now_strftime
       os_path_exists os_path_isfile os_path_isdir os_makedirs os_rename
       os_remove shutil_move s3_upload_file Image_open Image_save
       absent_or_not_file local_path resolves_to_file last_event lookup_node];
  cbn [output_dir infra_settings today fs undeletable s3_fault s3_objects trace
       emit set_fs set_s3_objects fst snd].

(** ** Sanity checks of the library models *)

Example split_ex1 : PyStr.split "/" "2024-03-22/render1.png" = ["2024-03-22"; "render1.png"].
Proof. reflexivity. Qed.

Example split_ex2 : PyStr.split "/" "/a//b/" = [""; "a"; ""; "b"; ""].
Proof. reflexivity. Qed.

Example as_posix_ex1 : PosixPath.as_posix "/a//b/./c/" = "/a/b/c".
Proof. reflexivity. Qed.

Example as_posix_ex2 : PosixPath.as_posix "//a" = "//a" /\ PosixPath.as_posix "///a" = "/a" /\ PosixPath.as_posix "" = ".".
Proof. repeat split; reflexivity. Qed.

Example dirname_ex : PosixPath.dirname "/a/b/c.png" = "/a/b" /\ PosixPath.dirname "/c" = "/" /\ PosixPath.dirname "c" = "" /\ PosixPath.dirname "//a" = "//".
Proof. repeat split; reflexivity. Qed.

Example join_ex : PosixPath.join "/a" "b/c" = "/a/b/c" /\ PosixPath.join "/a/" "b" = "/a/b" /\ PosixPath.join "/a" "/b" = "/b" /\ PosixPath.join "" "b" = "b".
Proof. repeat split; reflexivity. Qed.

Example upper_ex : PyStr.upper "jpeg" = "JPEG" /\ PyStr.lower "PnG" = "png".
Proof. split; reflexivity. Qed.

Example b64encode_ex :
  Base64.b64encode [Byte.x4d; Byte.x61; Byte.x6e] = "TWFu" /\
  Base64.b64encode [Byte.x4d; Byte.x61] = "TWE=" /\
  Base64.b64encode [Byte.x4d] = "TQ==" /\
  Base64.b64encode [Byte.xff; Byte.xfe; Byte.xfd; Byte.x00] = "//79AA==".
Proof. repeat split; reflexivity. Qed.

Example strftime_ex : strftime_ymd (mkDate 2024 3 22) = "2024-03-22".
Proof. reflexivity. Qed.

(** With a codec that names its formats PNG, JPEG and WEBP, a stored jpg file
    is read back as PNG bytes, while the base64 conversion passes the format
    name JPG to the encoder and raises what the encoder raises. *)
Example jpg_readback_ex :
  let w := set_fs {[ "/app/outputs/files/2024-03-21/a.jpg" := File sample_bytes ]} world_empty in
  fst (output_file_to_bytesimg (pil := sample_pil) (Some "2024-03-21/a.jpg") w)
    = inr (Some sample_bytes) /\
  fst (output_file_to_base64img (pil := sample_pil) (Some "2024-03-21/a.jpg") w)
    = inl (Raised KeyError "JPG").
Proof. split; vm_compute; reflexivity. Qed.

Example store_read_delete_read_ex :
  fst (store_read_delete_read world_tmp_file)
  = inr ("/app/outputs/files/2024-03-22/render1.png",
         Some "data:image/png;base64,AQID", true, None).
Proof. vm_compute. reflexivity. Qed.

Example normpath_ex :
  OsPath.normpath "/a/b/../../c" = "/c" /\ OsPath.normpath "a/../.." = ".." /\
  OsPath.normpath "" = "." /\ OsPath.normpath "//a" = "//a" /\
  OsPath.normpath "///a" = "/a" /\ OsPath.normpath "/.." = "/" /\
  OsPath.normpath "a/./b//c/" = "a/b/c" /\ OsPath.normpath "a/.." = "." /\
  OsPath.normpath "../a/.." = "..".
Proof. repeat split; reflexivity. Qed.

Example compute_output_dir_ex :
  compute_output_dir "/srv" "/app/fooocusapi/utils/file_utils.py" = "/app/outputs/files" /\
  compute_output_dir "/srv" "fooocusapi/utils/file_utils.py" = "/srv/outputs/files".
Proof. split; reflexivity. Qed.

Example abs_normal_ex :
  abs_normal "/app/outputs/files" = true /\ abs_normal "app/outputs" = false /\
  abs_normal "/app//outputs" = false /\ abs_normal "/app/" = false.
Proof. repeat split; reflexivity. Qed.

(** ** Facts about the string operations *)

Section StringFacts.

Lemma append_cons (a : ascii) (s t : string) : String a s +:+ t = String a (s +:+ t).
Proof. reflexivity. Qed.

Lemma append_nil_l (s : string) : "" +:+ s = s.
Proof. reflexivity. Qed.


Lemma append_assoc (a b c : string) : (a +:+ b) +:+ c = a +:+ (b +:+ c).
Proof. induction a as [|x a IH]; [reflexivity | now rewrite !append_cons, IH]. Qed.

Lemma split_nonempty (c : ascii) (s : string) : PyStr.split c s <> [].
Proof.
  destruct s as [|a s]; simpl; [discriminate|].
  destruct (Ascii.eqb a c); [discriminate|].
  destruct (PyStr.split c s); discriminate.
Qed.

Lemma contains_append (c : ascii) (a b : string) :
  PyStr.contains c (a +:+ b) = PyStr.contains c a || PyStr.contains c b.
Proof.
  induction a as [|x a IH]; [reflexivity|].
  rewrite append_cons. simpl. rewrite IH. now rewrite orb_assoc.
Qed.

(** Splitting a string without the separator gives the string itself. *)
Lemma split_no_sep (c : ascii) (s : string) :
  PyStr.contains c s = false -> PyStr.split c s = [s].
Proof.
  induction s as [|a s IH]; simpl; [reflexivity|].
  intros H. apply orb_false_iff in H as [Ha Hs].
  rewrite Ha, (IH Hs). reflexivity.
Qed.

(** Splitting [a + c + b] when [a] has no separator. *)
Lemma split_append_sep (c : ascii) (a b : string) :
  PyStr.contains c a = false ->
  PyStr.split c (a +:+ String c b) = a :: PyStr.split c b.
Proof.
  induction a as [|x a IH]; intros H.
  - rewrite append_nil_l. simpl. now rewrite Ascii.eqb_refl.
  - simpl in H. apply orb_false_iff in H as [Hx Ha].
    rewrite append_cons. simpl. rewrite Hx, (IH Ha). reflexivity.
Qed.

(** The parts of a split never contain the separator. *)
Lemma split_parts_no_sep (c : ascii) (s : string) :
  Forall (fun x => PyStr.contains c x = false) (PyStr.split c s).
Proof.
  induction s as [|a s IH]; simpl.
  - constructor; [reflexivity | constructor].
  - destruct (Ascii.eqb a c) eqn:E.
    + constructor; [reflexivity | exact IH].
    + destruct (PyStr.split c s) as [|h t].
      * constructor; [simpl; now rewrite E | constructor].
      * inversion IH; subst. constructor; [simpl; now rewrite E | assumption].
Qed.

(** [sep.join(s.split(sep)) == s]. *)
Lemma join_split (c : ascii) (s : string) :
  PyStr.join (String c "") (PyStr.split c s) = s.
Proof.
  induction s as [|a s IH]; simpl; [reflexivity|].
  destruct (Ascii.eqb a c) eqn:E.
  - apply Ascii.eqb_eq in E. subst a.
    pose proof (split_nonempty c s) as Hne.
    destruct (PyStr.split c s) as [|h t]; [congruence|].
    simpl in *. rewrite IH. reflexivity.
  - pose proof (split_nonempty c s) as Hne.
    destruct (PyStr.split c s) as [|h t]; [congruence|].
    destruct t as [|h' t]; simpl in *; rewrite <- IH; reflexivity.
Qed.

(** [sep.join(l).split(sep) == l] when no item contains the separator. *)
Lemma split_join (c : ascii) (l : list string) :
  l <> [] ->
  Forall (fun x => PyStr.contains c x = false) l ->
  PyStr.split c (PyStr.join (String c "") l) = l.
Proof.
  induction l as [|x l IH]; intros Hne Hall; [congruence|].
  inversion Hall as [|? ? Hx Hl]; subst.
  destruct l as [|y l].
  - simpl. now apply split_no_sep.
  - change (PyStr.join (String c "") (x :: y :: l))
      with (x +:+ String c (PyStr.join (String c "") (y :: l))).
    rewrite split_append_sep by assumption.
    rewrite IH; [reflexivity | discriminate | assumption].
Qed.

Lemma join_app (sep : string) (l1 l2 : list string) :
  l1 <> [] -> l2 <> [] ->
  PyStr.join sep (l1 ++ l2) = PyStr.join sep l1 +:+ sep +:+ PyStr.join sep l2.
Proof.
  induction l1 as [|x l1 IH]; intros H1 H2; [congruence|].
  destruct l1 as [|y l1].
  - destruct l2; [congruence | reflexivity].
  - change (PyStr.join sep ((x :: y :: l1) ++ l2))
      with (x +:+ sep +:+ PyStr.join sep ((y :: l1) ++ l2)).
    rewrite IH by (assumption || discriminate).
    change (PyStr.join sep (x :: y :: l1)) with (x +:+ sep +:+ PyStr.join sep (y :: l1)).
    now rewrite !append_assoc.
Qed.

End StringFacts.
(** ** Facts about dates and paths *)

Lemma digit_cases (n : N) :
  In (digit n) ["0"; "1"; "2"; "3"; "4"; "5"; "6"; "7"; "8"; "9"]%char.
Proof.
  unfold digit.
  pose proof (N.mod_lt n 10 ltac:(lia)) as Hlt.
  set (m := (n mod 10)%N) in *. clearbody m.
  assert (H : m = 0%N \/ m = 1%N \/ m = 2%N \/ m = 3%N \/ m = 4%N \/
              m = 5%N \/ m = 6%N \/ m = 7%N \/ m = 8%N \/ m = 9%N) by lia.
  repeat (destruct H as [->|H]; [vm_compute; tauto|]).
  rewrite H. vm_compute; tauto.
Qed.

Lemma digit_not_slash (n : N) : Ascii.eqb (digit n) "/" = false.
Proof.
  pose proof (digit_cases n) as H. simpl in H.
  repeat (destruct H as [<-|H]; [reflexivity|]). contradiction.
Qed.

Lemma contains_cons (c a : ascii) (s : string) :
  PyStr.contains c (String a s) = Ascii.eqb a c || PyStr.contains c s.
Proof. reflexivity. Qed.

Lemma date_no_slash (d : Date) : PyStr.contains "/" (strftime_ymd d) = false.
Proof.
  unfold strftime_ymd. rewrite !contains_cons, !digit_not_slash. reflexivity.
Qed.

Lemma kept_part_long (a b : ascii) (s : string) :
  PosixPath.kept_part (String a (String b s)) = true.
Proof.
  unfold PosixPath.kept_part.
  change (String.eqb (String a (String b s)) "") with false.
  change (String.eqb (String a (String b s)) ".")
    with (Ascii.eqb a "." && false).
  now rewrite andb_false_r.
Qed.

Lemma date_kept (d : Date) : PosixPath.kept_part (strftime_ymd d) = true.
Proof. apply kept_part_long. Qed.

Lemma date_not_absolute (d : Date) (rest : string) :
  PyStr.startswith "/" (strftime_ymd d +:+ rest) = false.
Proof.
  unfold strftime_ymd, PyStr.startswith. rewrite append_cons.
  change (String.prefix "/" (String ?a ?s))
    with (if ascii_dec "/" a then String.prefix "" s else false).
  destruct (ascii_dec "/" (digit (year d / 1000))) as [E|]; [|reflexivity].
  pose proof (digit_not_slash (year d / 1000)) as H.
  rewrite <- E in H. discriminate.
Qed.

Lemma endswith_no_sep (c : ascii) (s : string) :
  PyStr.contains c s = false -> PyStr.endswith_char c s = false.
Proof.
  induction s as [|a s IH]; [reflexivity|]. simpl.
  intros H. apply orb_false_iff in H as [Ha Hs].
  destruct s; [exact Ha | now apply IH].
Qed.

Lemma date_no_trailing_slash (d : Date) :
  PyStr.endswith_char "/" (strftime_ymd d) = false.
Proof. apply endswith_no_sep, date_no_slash. Qed.

Lemma endswith_append (c : ascii) (a b : string) :
  b <> "" -> PyStr.endswith_char c (a +:+ b) = PyStr.endswith_char c b.
Proof.
  intros Hb. induction a as [|x a IH]; [reflexivity|].
  rewrite append_cons. simpl.
  destruct (a +:+ b) eqn:E; [|exact IH].
  destruct a; [rewrite append_nil_l in E; congruence | discriminate].
Qed.
Lemma filter_all {A} (f : A -> bool) (l : list A) :
  forallb f l = true -> List.filter f l = l.
Proof.
  induction l as [|x l IH]; [reflexivity|]. simpl.
  intros H. apply andb_true_iff in H as [Hx Hl].
  now rewrite Hx, (IH Hl).
Qed.

Lemma kept_part_nonempty (s : string) :
  PosixPath.kept_part s = true -> exists a s', s = String a s'.
Proof. destruct s as [|a s']; [discriminate | eauto]. Qed.

(** A joined list starts with the first character of its first item. *)
Lemma join_head (sep : string) (a : ascii) (s : string) (rest : list string) :
  exists t, PyStr.join sep (String a s :: rest) = String a t.
Proof.
  destruct rest as [|y rest]; [now exists s|].
  exists (s +:+ sep +:+ PyStr.join sep (y :: rest)). reflexivity.
Qed.

(** A rooted path made of kept parts is printed unchanged by [as_posix]. *)
Lemma as_posix_rooted (parts : list string) :
  parts <> [] ->
  Forall (fun x => PyStr.contains "/" x = false) parts ->
  forallb PosixPath.kept_part parts = true ->
  PosixPath.as_posix ("/" +:+ PyStr.join "/" parts) = "/" +:+ PyStr.join "/" parts.
Proof.
  intros Hne Hsep Hkept.
  destruct parts as [|s rest]; [congruence|].
  pose proof Hkept as Hk. simpl in Hk. apply andb_true_iff in Hk as [Hs _].
  destruct (kept_part_nonempty s Hs) as (a & s' & ->).
  assert (Ha : Ascii.eqb a "/" = false).
  { inversion Hsep as [|? ? H1 _]; subst. simpl in H1.
    now apply orb_false_iff in H1 as [H1 _]. }
  pose proof (split_join "/" (String a s' :: rest) Hne Hsep) as Hsplit.
  destruct (join_head "/" a s' rest) as [t Ht].
  change (String "/" "") with "/" in Hsplit.
  rewrite Ht in *.
  unfold PosixPath.as_posix.
  change ("/" +:+ String a t) with (String "/" (String a t)).
  unfold PosixPath.splitroot, PosixPath.slash.
  rewrite Ascii.eqb_refl, Ha, Hsplit.
  rewrite filter_all by exact Hkept.
  rewrite Ht. reflexivity.
Qed.

(** The shape behind [abs_normal]. *)
Lemma abs_normal_parts (root : string) :
  abs_normal root = true ->
  exists parts,
    parts <> [] /\
    Forall (fun x => PyStr.contains "/" x = false) parts /\
    forallb PosixPath.kept_part parts = true /\
    root = "/" +:+ PyStr.join "/" parts.
Proof.
  unfold abs_normal. intros H.
  pose proof (join_split "/" root) as Hjoin.
  pose proof (split_parts_no_sep "/" root) as Hsep.
  destruct (PyStr.split "/" root) as [|[|? ?] [|s rest]]; try discriminate.
  exists (s :: rest). repeat split.
  - discriminate.
  - now inversion Hsep.
  - exact H.
  - rewrite <- Hjoin. reflexivity.
Qed.

Lemma join_no_trailing_sep (c : ascii) (parts : list string) :
  parts <> [] ->
  Forall (fun x => PyStr.contains c x = false) parts ->
  forallb PosixPath.kept_part parts = true ->
  PyStr.endswith_char c (PyStr.join (String c "") parts) = false.
Proof.
  induction parts as [|x parts IH]; intros Hne Hall Hkept; [congruence|].
  inversion Hall as [|? ? Hx Hrest]; subst.
  simpl in Hkept. apply andb_true_iff in Hkept as [_ Hkept].
  destruct parts as [|y parts].
  - simpl. now apply endswith_no_sep.
  - change (PyStr.join (String c "") (x :: y :: parts))
      with (x +:+ String c (PyStr.join (String c "") (y :: parts))).
    rewrite endswith_append by discriminate.
    specialize (IH ltac:(discriminate) Hrest Hkept).
    pose proof Hkept as Hy. simpl in Hy. apply andb_true_iff in Hy as [Hy _].
    destruct (kept_part_nonempty y Hy) as (a & y' & ->).
    destruct (join_head (String c "") a y' parts) as [t Ht].
    rewrite Ht in *. exact IH.
Qed.

Lemma abs_normal_join (root filename : string) :
  abs_normal root = true ->
  PyStr.startswith "/" filename = false ->
  PosixPath.join root filename = root +:+ "/" +:+ filename.
Proof.
  intros Hroot Hrel.
  destruct (abs_normal_parts root Hroot) as (parts & Hne & Hsep & Hkept & ->).
  unfold PosixPath.join. rewrite Hrel.
  pose proof (join_no_trailing_sep "/" parts Hne Hsep Hkept) as Hend.
  destruct parts as [|s rest]; [congruence|].
  pose proof Hkept as Hs. simpl in Hs. apply andb_true_iff in Hs as [Hs _].
  destruct (kept_part_nonempty s Hs) as (a & s' & ->).
  destruct (join_head "/" a s' rest) as [t Ht].
  change (String "/" "") with "/" in Hend.
  rewrite Ht in *.
  change ("/" +:+ String a t) with (String "/" (String a t)).
  change (String.eqb (String "/" (String a t)) "") with false.
  change (PyStr.endswith_char PosixPath.slash (String "/" (String a t)))
    with (PyStr.endswith_char "/" (String a t)).
  rewrite Hend. reflexivity.
Qed.

Lemma plain_name_relative (name rest : string) :
  plain_name name = true -> PyStr.startswith "/" (name +:+ rest) = false.
Proof.
  unfold plain_name, no_slash. intros H. apply andb_true_iff in H as [Hne Hns].
  destruct name as [|a name]; [discriminate|].
  apply negb_true_iff in Hns. simpl in Hns. apply orb_false_iff in Hns as [Ha _].
  rewrite append_cons. unfold PyStr.startswith.
  change (String.prefix "/" (String ?x ?s))
    with (if ascii_dec "/" x then String.prefix "" s else false).
  destruct (ascii_dec "/" a) as [<-|]; [discriminate | reflexivity].
Qed.

Lemma date_join (d : Date) (name rest : string) :
  plain_name name = true ->
  PosixPath.join (strftime_ymd d) (name +:+ rest) = strftime_ymd d +:+ "/" +:+ name +:+ rest.
Proof.
  intros Hname. unfold PosixPath.join.
  rewrite (plain_name_relative name rest Hname).
  unfold PosixPath.slash. rewrite date_no_trailing_slash.
  reflexivity.
Qed.

(** The path under which [save_output_file] stores a plainly named image is
    already in the form [as_posix] prints. *)
Lemma file_path_posix (root : string) (d : Date) (name ext : string) :
  abs_normal root = true ->
  plain_name name = true ->
  no_slash ext = true ->
  PosixPath.as_posix
    (PosixPath.join root (PosixPath.join (strftime_ymd d) (name +:+ "." +:+ ext)))
  = root +:+ "/" +:+ strftime_ymd d +:+ "/" +:+ name +:+ "." +:+ ext.
Proof.
  intros Hroot Hname Hext.
  rewrite date_join by assumption.
  rewrite abs_normal_join by (assumption || apply date_not_absolute).
  destruct (abs_normal_parts root Hroot) as (parts & Hne & Hsep & Hkept & ->).
  set (leaf := name +:+ "." +:+ ext).
  assert (Hleaf_sep : PyStr.contains "/" leaf = false).
  { unfold leaf. rewrite !contains_append.
    unfold plain_name, no_slash in *.
    apply andb_true_iff in Hname as [_ Hn].
    apply negb_true_iff in Hn, Hext. now rewrite Hn, Hext. }
  assert (Hleaf_kept : PosixPath.kept_part leaf = true).
  { unfold leaf, plain_name in *. apply andb_true_iff in Hname as [Hn _].
    destruct name as [|a [|b name]]; [discriminate | |];
      rewrite ?append_cons; apply kept_part_long. }
  assert (Hshape :
    ("/" +:+ PyStr.join "/" parts) +:+ "/" +:+ strftime_ymd d +:+ "/" +:+ leaf
    = "/" +:+ PyStr.join "/" (parts ++ [strftime_ymd d; leaf])).
  { rewrite join_app by (assumption || discriminate).
    change (PyStr.join "/" [strftime_ymd d; leaf])
      with (strftime_ymd d +:+ "/" +:+ leaf).
    rewrite !append_assoc. reflexivity. }
  rewrite Hshape.
  apply as_posix_rooted.
  - destruct parts; [congruence | discriminate].
  - apply Forall_app. split; [assumption|].
    repeat constructor; [apply date_no_slash | assumption].
  - rewrite forallb_app, Hkept. 
    change (forallb PosixPath.kept_part [strftime_ymd d; leaf])
      with (PosixPath.kept_part (strftime_ymd d) && (PosixPath.kept_part leaf && true)).
    rewrite date_kept, Hleaf_kept. reflexivity.
Qed.
(** ** Running the module's functions *)

Lemma last_snoc {A} (l : list A) (x : A) :
  List.last (map Some (l ++ [x])) None = Some x.
Proof.
  rewrite map_app. simpl. induction (map Some l) as [|y l' IH]; [reflexivity|].
  simpl. destruct (l' ++ [Some x]) eqn:E; [|exact IH].
  destruct l'; discriminate.
Qed.

(** What [delete_output_file] does on a path the system accepts: it removes
    the file exactly when it is a regular file whose removal is permitted. *)
Lemma delete_output_file_outcome (w : World) (filename : string) :
  PosixPath.path_ok (local_path w filename) = true ->
  let p := local_path w filename in
  let removed := is_file_node (lookup_node p w) && negb (bool_decide (p ∈ undeletable w)) in
  exists w',
    delete_output_file filename w = (inr removed, w') /\
    output_dir w' = output_dir w /\
    undeletable w' = undeletable w /\
    fs w' = (if removed then delete p (fs w) else fs w) /\
    last_event w' =
      Some (if removed
            then EvLog Info ("[Fooocus API] Delete output file: " +:+ filename)
            else EvLog Error ("[Fooocus API] Delete output file failed: " +:+ filename)).
Proof.
  intros Hok. unfold local_path in Hok. unfold delete_output_file. unfold_run.
  set (p := PosixPath.join _ _) in *. rewrite Hok.
  destruct (fs w !! p) as [[c|]|] eqn:Hnode;
    destruct (bool_decide (p ∈ undeletable w)) eqn:Hden;
    repeat (progress (simpl; rewrite ?Hnode, ?Hden));
    eexists; (split; [reflexivity|]);
    simpl; rewrite ?last_snoc; repeat split.
Qed.

(** On a path the system rejects, [os.remove] raises [ValueError], which
    [delete_output_file] does not catch. *)
Lemma delete_output_file_bad_path (w : World) (filename : string) :
  PosixPath.path_ok (local_path w filename) = false ->
  fst (delete_output_file filename w) = inl (Raised ValueError "embedded null byte").
Proof.
  intros Hbad. unfold local_path in Hbad. unfold delete_output_file. unfold_run.
  rewrite Hbad. reflexivity.
Qed.

Section ReadBackFacts.
Context `{pil : PIL}.

(** Read-back of a name that does not resolve to a regular file: both
    conversions return [None] and leave the files alone. *)
Lemma readback_absent (w : World) (filename : string) :
  resolves_to_file w filename = false ->
  exists w1 w2,
    output_file_to_bytesimg (Some filename) w = (inr None, w1) /\
    output_file_to_base64img (Some filename) w = (inr None, w2) /\
    fs w1 = fs w /\ fs w2 = fs w /\
    output_dir w1 = output_dir w /\ output_dir w2 = output_dir w.
Proof.
  unfold output_file_to_bytesimg, output_file_to_base64img. unfold_run.
  set (p := PosixPath.join _ _).
  intros Hno.
  destruct (PosixPath.path_ok p) eqn:Hok;
    destruct (fs w !! p) as [[c|]|] eqn:Hnode; try discriminate;
    repeat (progress (simpl; rewrite ?Hnode));
    do 2 eexists; (split; [reflexivity|]); (split; [reflexivity|]);
    repeat split.
Qed.

(** Read-back of a name that resolves to a decodable regular file. *)
Lemma readback_present (w : World) (filename : string) (c : list Byte.byte) (img : Image) :
  PosixPath.path_ok (local_path w filename) = true ->
  lookup_node (local_path w filename) w = Some (File c) ->
  decode_image c = Some img ->
  let ext0 := PyStr.last_item (PyStr.split "." filename) in
  let ext :=
    if PyStr.mem (PyStr.lower ext0) ["png"; "jpg"; "webp"; "jpeg"] then ext0 else "png" in
  fst (output_file_to_bytesimg (Some filename) w)
    = match encode_image img "PNG" with
      | inr data => inr (Some data)
      | inl e => inl e
      end /\
  fst (output_file_to_base64img (Some filename) w)
    = match encode_image img (PyStr.upper ext) with
      | inr data =>
          inr (Some ("data:image/" +:+ ext +:+ ";base64," +:+ Base64.b64encode data))
      | inl e => inl e
      end.
Proof.
  unfold output_file_to_bytesimg, output_file_to_base64img. unfold_run.
  set (p := PosixPath.join _ _).
  intros Hok Hnode Hdec.
  rewrite Hok.
  repeat (progress (simpl; rewrite ?Hnode, ?Hdec)).
  split.
  - destruct (encode_image img "PNG"); reflexivity.
  - match goal with |- context [PyStr.mem ?a ?b] => destruct (PyStr.mem a b) end; simpl;
      match goal with |- context [encode_image ?i ?f] => destruct (encode_image i f) end;
      reflexivity.
Qed.

End ReadBackFacts.

(** ** Segments of a file name *)

(** Splitting distributes over a separator between two strings. *)
Lemma split_app_sep (c : ascii) (a b : string) :
  PyStr.split c (a +:+ String c b) = PyStr.split c a ++ PyStr.split c b.
Proof.
  induction a as [|x a IH].
  - rewrite append_nil_l. simpl. now rewrite Ascii.eqb_refl.
  - rewrite append_cons. simpl. rewrite IH.
    destruct (Ascii.eqb x c); [reflexivity|].
    pose proof (split_nonempty c a) as Hne.
    destruct (PyStr.split c a) as [|h t]; [congruence | reflexivity].
Qed.

Lemma last_item_snoc (l : list string) (x : string) :
  PyStr.last_item (l ++ [x]) = x.
Proof. unfold PyStr.last_item. apply last_last. Qed.

(** The base name of [dir/b] is [b]. *)
Lemma basename_of_path (dir b : string) :
  no_slash b = true ->
  PyStr.last_item (PyStr.split "/" (dir +:+ "/" +:+ b)) = b.
Proof.
  unfold no_slash. intros H. apply negb_true_iff in H.
  change ("/" +:+ b) with (String "/" b).
  rewrite split_app_sep, (split_no_sep "/" b H).
  apply last_item_snoc.
Qed.

(** The base name of a name without directory is the name itself. *)
Lemma basename_of_leaf (b : string) :
  no_slash b = true -> PyStr.last_item (PyStr.split "/" b) = b.
Proof.
  unfold no_slash. intros H. apply negb_true_iff in H.
  now rewrite (split_no_sep "/" b H).
Qed.

(** [l[-2:]] is the last two items of [l]. *)
Lemma slice_last_two {A} (l : list A) : PyStr.slice_last 2 l = last_two l.
Proof.
  unfold PyStr.slice_last, last_two.
  destruct (rev l) as [|b [|d r]] eqn:E.
  - apply (f_equal (@rev A)) in E. rewrite rev_involutive in E. now subst.
  - apply (f_equal (@rev A)) in E. rewrite rev_involutive in E. now subst.
  - apply (f_equal (@rev A)) in E. rewrite rev_involutive in E. subst l.
    simpl. rewrite <- app_assoc. simpl.
    rewrite length_app. simpl.
    replace (length (rev r) + 2 - 2) with (length (rev r) + 0) by lia.
    rewrite skipn_app, Nat.add_0_r, skipn_all, Nat.sub_diag. reflexivity.
Qed.

(** The last two segments of [pre/d/b] are [d] and [b]. *)
Lemma last_two_segments_of_path (pre d b : string) :
  no_slash d = true -> no_slash b = true ->
  PyStr.slice_last 2 (PyStr.split "/" (pre +:+ "/" +:+ d +:+ "/" +:+ b)) = [d; b].
Proof.
  unfold no_slash. intros Hd Hb. apply negb_true_iff in Hd, Hb.
  change ("/" +:+ d +:+ "/" +:+ b) with (String "/" (d +:+ String "/" b)).
  rewrite !split_app_sep, (split_no_sep "/" d Hd), (split_no_sep "/" b Hb).
  rewrite slice_last_two. unfold last_two.
  rewrite !rev_app_distr. reflexivity.
Qed.

(** ** Storing and uploading *)

(** Whenever [save_output_file] returns, it returns the printed form of the
    path it computed, whatever its first argument is. *)
Lemma save_output_file_value (img : ImgArg) (name ext : string) (w w' : World) (p : string) :
  save_output_file img name ext w = (inr p, w') ->
  p = PosixPath.as_posix
        (PosixPath.join (output_dir w)
           (PosixPath.join (strftime_ymd (today w)) (name +:+ "." +:+ ext))).
Proof.
  unfold save_output_file.
  cbv [bind ret raise gets tell try_except now_strftime].
  cbn [output_dir today emit].
  set (file_path := PosixPath.join (output_dir w) _).
  destruct (os_makedirs _ _) as [[e|[]] w1]; [discriminate|].
  destruct img as [px|src].
  - simpl. intros H. inversion H. reflexivity.
  - destruct (shutil_move src file_path w1) as [[e|[]] w2];
      simpl; intros H; inversion H; reflexivity.
Qed.

(** Given a pixel buffer, [save_output_file] creates no regular file: the
    only change to the file system is the directory of the day. *)
Lemma save_ndarray_keeps_files (px : list nat) (name ext : string) (w w' : World)
    (r : exn + string) :
  save_output_file (NdArray px) name ext w = (r, w') ->
  output_dir w' = output_dir w /\
  forall q, is_file_node (lookup_node q w') = is_file_node (lookup_node q w).
Proof.
  unfold save_output_file. unfold_run.
  set (d := PosixPath.dirname _).
  destruct (negb (PosixPath.path_ok d)); [intros H; inversion H; now split|].
  destruct (String.eqb d ""); [intros H; inversion H; now split|].
  destruct (fs w !! d) as [[c|]|] eqn:Hd; simpl;
    intros H; inversion H; subst; (split; [reflexivity|]); try reflexivity.
  intros q. simpl. destruct (decide (d = q)) as [<-|Hne].
  - now rewrite lookup_insert_eq, Hd.
  - now rewrite lookup_insert_ne.
Qed.

(** The complete outcome of [upload_to_minio]: the upload needs the local
    file and an object store that answers without a fault; the files are left
    as they were in every case. *)
Lemma upload_to_minio_outcome (w : World) (filename : string) :
  let p := local_path w filename in
  let key := strftime_ymd (today w) +:+ "/" +:+ PyStr.last_item (PyStr.split "/" filename) in
  let url := PyStr.fmt_opt (URL_S3 (infra_settings w)) +:+ "/" +:+ key in
  exists w',
    upload_to_minio filename w =
      (match lookup_node p w, s3_fault w with
       | Some (File _), None => inr url
       | Some (File _), Some e => inl e
       | _, _ => inl (Raised OSError "No such file or directory")
       end, w') /\
    fs w' = fs w /\ today w' = today w /\ infra_settings w' = infra_settings w /\
    s3_objects w' =
      match lookup_node p w, s3_fault w with
      | Some (File c), None => <[key := c]> (s3_objects w)
      | _, _ => s3_objects w
      end /\
    (forall c e,
       lookup_node p w = Some (File c) -> s3_fault w = Some e ->
       is_upload_error e = true ->
       last_event w' = Some (EvLog Error ("Error when uploading to MinIO: " +:+ exn_str e))).
Proof.
  unfold upload_to_minio. unfold_run.
  set (p := PosixPath.join _ _).
  destruct (fs w !! p) as [[c|]|] eqn:Hnode; simpl;
    [destruct (s3_fault w) as [e|] eqn:Hfault; simpl;
       [destruct (is_upload_error e) eqn:Hup; simpl|] | |];
    eexists; (split; [reflexivity|]); repeat split;
    intros c' e' Hc He Hu; inversion He; subst; try discriminate; try congruence.
  simpl. rewrite last_snoc. reflexivity.
Qed.

(** * Properties of the specification *)

(** ** Deleting *)




(** ** Reading back *)

(** C3. A name whose local path is absent or not a regular file, and in
    particular a name that [delete_output_file] has just removed, reads back
    as [None] from both conversions, without an exception. *)
Theorem readback_of_missing_file_is_none `{pil : PIL} (w : World) (filename : string) :
  resolves_to_file w filename = false \/
  (exists w0, delete_output_file filename w0 = (inr true, w)) ->
  fst (output_file_to_bytesimg (Some filename) w) = inr None /\
  fst (output_file_to_base64img (Some filename) w) = inr None.
Proof.
  intros H.
  assert (Hno : resolves_to_file w filename = false).
  { destruct H as [H|[w0 Hdel]]; [exact H|].
    destruct (PosixPath.path_ok (local_path w0 filename)) eqn:Hok.
    - destruct (delete_output_file_outcome w0 filename Hok)
        as (w' & Hrun & Hroot & _ & Hfs & _).
      cbv zeta in *. rewrite Hdel in Hrun. inversion Hrun as [[Hrem Hw]]. subst w'.
      rewrite <- Hrem in Hfs.
      unfold resolves_to_file, lookup_node, local_path. rewrite Hfs, Hroot.
      unfold local_path. rewrite lookup_delete_eq. apply andb_false_r.
    - pose proof (delete_output_file_bad_path w0 filename Hok) as Hbad.
      rewrite Hdel in Hbad. discriminate. }
  destruct (readback_absent w filename Hno) as (w1 & w2 & Hb & Hs & _).
  now rewrite Hb, Hs.
Qed.

Lemma readback_of_missing_file_is_none_witness :
  exists w,
    delete_output_file "2024-03-21/render1.png" world_one_file = (inr true, w) /\
    fst (output_file_to_bytesimg (pil := sample_pil) (Some "2024-03-21/render1.png") w) = inr None /\
    fst (output_file_to_base64img (pil := sample_pil) (Some "2024-03-21/render1.png") w) = inr None.
Proof.
  eexists. split; [vm_compute; reflexivity|].
  apply (readback_of_missing_file_is_none (pil := sample_pil)).
  right. exists world_one_file. vm_compute. reflexivity.
Defined.

(** C10. With [None] for a file name, both conversions and both URL
    derivations return [None], raise nothing and leave the world, its trace of
    file-system accesses included, as it was. *)
Theorem none_filename_returns_none `{pil : PIL} (w : World) :
  output_file_to_base64img None w = (inr None, w) /\
  output_file_to_bytesimg None w = (inr None, w) /\
  get_file_serve_url None w = (inr None, w) /\
  get_file_s3_url None w = (inr None, w).
Proof. repeat split. Qed.

(** ** URLs *)

(** C7. The serve URL of a name is the fixed base URL followed by the last
    two slash-separated segments of the name, for a stored file its date
    directory and its base name; computing it changes nothing and the result
    is the same in every world, whatever its output root. *)
Theorem get_file_serve_url_last_two_segments (w : World) (filename : string) :
  get_file_serve_url (Some filename) w
    = (inr (Some (STATIC_SERVER_BASE +:+
                  PyStr.join "/" (last_two (PyStr.split "/" filename)))), w) /\
  (forall w2,
     fst (get_file_serve_url (Some filename) w2) = fst (get_file_serve_url (Some filename) w)) /\
  (forall pre d b,
     no_slash d = true -> no_slash b = true ->
     filename = pre +:+ "/" +:+ d +:+ "/" +:+ b ->
     fst (get_file_serve_url (Some filename) w)
     = inr (Some (STATIC_SERVER_BASE +:+ d +:+ "/" +:+ b))).
Proof.
  unfold get_file_serve_url, ret. split; [|split].
  - now rewrite slice_last_two.
  - reflexivity.
  - intros pre d b Hd Hb ->. simpl.
    now rewrite last_two_segments_of_path.
Qed.

Lemma get_file_serve_url_last_two_segments_witness :
  fst (get_file_serve_url (Some "/app/outputs/files/2024-03-22/render1.png") world_empty)
  = inr (Some "http://127.0.0.1:8888/files/2024-03-22/render1.png").
Proof.
  apply (proj2 (proj2 (get_file_serve_url_last_two_segments world_empty
                         "/app/outputs/files/2024-03-22/render1.png"))
           "/app/outputs/files" "2024-03-22" "render1.png");
    reflexivity.
Defined.

(** C5. A successful upload of [dir/b] stores the file under the key made
    of today's date and [b], whatever [dir] is, and returns the endpoint,
    a slash and that key. *)
Theorem upload_to_minio_url (w w' : World) (dir b url : string) :
  no_slash b = true ->
  upload_to_minio (dir +:+ "/" +:+ b) w = (inr url, w') ->
  let remote_key := strftime_ymd (today w) +:+ "/" +:+ b in
  url = PyStr.fmt_opt (URL_S3 (infra_settings w)) +:+ "/" +:+ remote_key /\
  (forall endpoint, URL_S3 (infra_settings w) = Some endpoint ->
                    url = endpoint +:+ "/" +:+ remote_key) /\
  s3_objects w' !! remote_key
    = match lookup_node (local_path w (dir +:+ "/" +:+ b)) w with
      | Some (File c) => Some c
      | _ => None
      end.
Proof.
  intros Hb Hrun.
  destruct (upload_to_minio_outcome w (dir +:+ "/" +:+ b))
    as (w1 & Hout & _ & _ & _ & Hobj & _).
  cbv zeta in *. rewrite (basename_of_path dir b Hb) in *.
  rewrite Hrun in Hout. inversion Hout as [[Hres Hw]]. subst w1.
  destruct (lookup_node _ w) as [[c|]|]; try discriminate.
  destruct (s3_fault w); try discriminate.
  inversion Hres as [Hurl]. split; [reflexivity|]. split.
  - intros endpoint He. rewrite He. reflexivity.
  - rewrite Hobj. apply lookup_insert_eq.
Qed.

Lemma upload_to_minio_url_witness :
  exists url w',
    upload_to_minio ("2024-03-21" +:+ "/" +:+ "render1.png") world_one_file = (inr url, w') /\
    url = "http://minio:9000" +:+ "/" +:+ strftime_ymd (mkDate 2024 3 22) +:+ "/" +:+ "render1.png".
Proof.
  do 2 eexists. split; [vm_compute; reflexivity|].
  refine (proj1 (proj2 (upload_to_minio_url world_one_file _ "2024-03-21" "render1.png" _
                          eq_refl _)) "http://minio:9000" eq_refl).
  vm_compute. reflexivity.
Defined.

(** C6. The URL returned by a successful upload is the URL that
    [get_file_s3_url] derives for the same name on the same day with the same
    settings, in particular right after the upload. *)
Theorem remote_url_same_day (w w1 w2 : World) (filename url : string) :
  upload_to_minio filename w = (inr url, w1) ->
  today w2 = today w ->
  infra_settings w2 = infra_settings w ->
  fst (get_file_s3_url (Some filename) w2) = inr (Some url) /\
  fst (get_file_s3_url (Some filename) w1) = inr (Some url).
Proof.
  intros Hrun Hday Hcfg.
  destruct (upload_to_minio_outcome w filename)
    as (w' & Hout & _ & Hday1 & Hcfg1 & _).
  cbv zeta in *. rewrite Hrun in Hout. inversion Hout as [[Hres Hw]]. subst w'.
  destruct (lookup_node _ w) as [[c|]|]; try discriminate.
  destruct (s3_fault w); try discriminate.
  inversion Hres as [Hurl].
  unfold get_file_s3_url. unfold_run.
  now rewrite Hday, Hcfg, Hday1, Hcfg1.
Qed.

Lemma remote_url_same_day_witness :
  exists url w1,
    upload_to_minio "2024-03-21/render1.png" world_one_file = (inr url, w1) /\
    fst (get_file_s3_url (Some "2024-03-21/render1.png") w1) = inr (Some url).
Proof.
  do 2 eexists. split; [vm_compute; reflexivity|].
  refine (proj2 (remote_url_same_day world_one_file _ world_one_file
                   "2024-03-21/render1.png" _ _ eq_refl eq_refl)).
  vm_compute. reflexivity.
Defined.



(** ** Storing *)

(** C2 as the specification states it fails: on 2024-03-22, storing
    [render1] as png, from a pixel buffer or from a temporary file, returns
    the path below the output root, not the date-partitioned relative path. *)
Lemma save_output_file_not_relative :
  fst (save_output_file (NdArray []) "render1" "png" world_empty)
    = inr "/app/outputs/files/2024-03-22/render1.png" /\
  fst (save_output_file (PathStr "/tmp/render.png") "render1" "png" world_tmp_file)
    = inr "/app/outputs/files/2024-03-22/render1.png" /\
  fst (save_output_file (NdArray []) "render1" "png" world_empty)
    <> inr "2024-03-22/render1.png" /\
  fst (save_output_file (PathStr "/tmp/render.png") "render1" "png" world_tmp_file)
    <> inr "2024-03-22/render1.png".
Proof.
  repeat split; try (vm_compute; reflexivity); vm_compute; discriminate.
Qed.

(** C2, amended. With the output root an absolute normalised path, a
    non-empty base name and an extension without slashes, every call of
    [save_output_file] that returns gives the local path
    [<output root>/YYYY-MM-DD/<name>.<ext>], whose last two segments are the
    date of the call and [<name>.<ext>]. *)
Theorem save_output_file_returns_local_path (img : ImgArg) (name ext : string)
    (w w' : World) (p : string) :
  abs_normal (output_dir w) = true ->
  plain_name name = true ->
  no_slash ext = true ->
  save_output_file img name ext w = (inr p, w') ->
  p = output_dir w +:+ "/" +:+ strftime_ymd (today w) +:+ "/" +:+ name +:+ "." +:+ ext /\
  PyStr.slice_last 2 (PyStr.split "/" p) = [strftime_ymd (today w); name +:+ "." +:+ ext].
Proof.
  intros Hroot Hname Hext Hrun.
  apply save_output_file_value in Hrun.
  rewrite file_path_posix in Hrun by assumption.
  subst p. split; [reflexivity|].
  apply last_two_segments_of_path.
  - unfold no_slash. now rewrite date_no_slash.
  - unfold no_slash, plain_name in *. apply andb_true_iff in Hname as [_ Hn].
    apply negb_true_iff in Hn, Hext.
    now rewrite !contains_append, Hn, Hext.
Qed.

Lemma save_output_file_returns_local_path_witness :
  exists p w',
    save_output_file (PathStr "/tmp/render.png") "render1" "png" world_tmp_file
      = (inr p, w') /\
    p = "/app/outputs/files" +:+ "/" +:+ strftime_ymd (mkDate 2024 3 22) +:+ "/" +:+
        "render1" +:+ "." +:+ "png".
Proof.
  do 2 eexists. split; [vm_compute; reflexivity|].
  refine (proj1 (save_output_file_returns_local_path (PathStr "/tmp/render.png")
                   "render1" "png" world_tmp_file
                   _ _ eq_refl eq_refl eq_refl _)).
  vm_compute. reflexivity.
Defined.

(** C1 fails on the code: given a pixel buffer, [save_output_file] returns
    a path but writes no file, so that no regular file exists afterwards and
    both conversions read the returned path, and the relative path as well,
    back as [None]. *)
Theorem save_output_file_ndarray_not_written `{pil : PIL} (px : list nat) :
  exists p w',
    save_output_file (NdArray px) "render1" "png" world_empty = (inr p, w') /\
    p = "/app/outputs/files/2024-03-22/render1.png" /\
    (forall q, is_file_node (lookup_node q w') = false) /\
    fst (output_file_to_bytesimg (Some p) w') = inr None /\
    fst (output_file_to_base64img (Some p) w') = inr None /\
    fst (output_file_to_bytesimg (Some "2024-03-22/render1.png") w') = inr None /\
    fst (output_file_to_base64img (Some "2024-03-22/render1.png") w') = inr None.
Proof.
  set (res := save_output_file (NdArray px) "render1" "png" world_empty).
  assert (Hrun : res = (inr "/app/outputs/files/2024-03-22/render1.png", snd res))
    by (vm_compute; reflexivity).
  exists "/app/outputs/files/2024-03-22/render1.png", (snd res).
  split; [exact Hrun|]. split; [reflexivity|].
  destruct (save_ndarray_keeps_files px "render1" "png" world_empty _ _ Hrun)
    as [_ Hkeep].
  assert (Hnone : forall q, is_file_node (lookup_node q (snd res)) = false).
  { intros q. rewrite Hkeep. unfold lookup_node. simpl. now rewrite lookup_empty. }
  split; [exact Hnone|].
  assert (Hres : forall f, resolves_to_file (snd res) f = false).
  { intros f. unfold resolves_to_file. rewrite Hnone. apply andb_false_r. }
  repeat split.
  all: match goal with
       | |- fst (_ (Some ?f) _) = _ =>
           destruct (readback_absent (snd res) f (Hres f)) as (w1 & w2 & Hb & Hs & _);
           rewrite ?Hb, ?Hs; reflexivity
       end.
Qed.

(** ** Directory of a path *)

Lemma list_ascii_of_append (a b : string) :
  list_ascii_of_string (a +:+ b) = list_ascii_of_string a ++ list_ascii_of_string b.
Proof.
  induction a as [|x a IH]; [reflexivity|].
  rewrite append_cons. simpl. now rewrite IH.
Qed.

Lemma contains_forall (c : ascii) (s : string) :
  PyStr.contains c s = false ->
  Forall (fun x => Ascii.eqb x c = false) (list_ascii_of_string s).
Proof.
  induction s as [|a s IH]; simpl; intros H; [constructor|].
  apply orb_false_iff in H as [Ha Hs]. constructor; auto.
Qed.

Lemma drop_last_part_rev_app (l1 l2 : list ascii) :
  Forall (fun x => Ascii.eqb x PosixPath.slash = false) l1 ->
  PosixPath.drop_last_part_rev (l1 ++ PosixPath.slash :: l2) = PosixPath.slash :: l2.
Proof.
  induction 1 as [|x l1 Hx _ IH]; simpl.
  - reflexivity.
  - now rewrite Hx.
Qed.

Lemma last_char_not_sep (c : ascii) (s : string) :
  s <> "" -> PyStr.endswith_char c s = false ->
  exists l x, list_ascii_of_string s = l ++ [x] /\ Ascii.eqb x c = false.
Proof.
  induction s as [|a s IH]; [congruence|]. intros _ H.
  destruct s as [|b s].
  - exists [], a. split; [reflexivity | exact H].
  - destruct IH as (l & x & Hl & Hx); [discriminate | exact H |].
    exists (a :: l), x. split; [|exact Hx].
    change (list_ascii_of_string (String a (String b s)))
      with (a :: list_ascii_of_string (String b s)).
    now rewrite Hl.
Qed.

(** [os.path.dirname(a + "/" + leaf) == a] when [leaf] is one segment and
    [a] is not empty and does not end with a slash. *)
Lemma dirname_of_child (a leaf : string) :
  a <> "" ->
  PyStr.endswith_char "/" a = false ->
  PyStr.contains "/" leaf = false ->
  PosixPath.dirname (a +:+ "/" +:+ leaf) = a.
Proof.
  intros Hne Hend Hleaf.
  destruct (last_char_not_sep "/" a Hne Hend) as (l & x & Hl & Hx).
  unfold PosixPath.dirname.
  rewrite !list_ascii_of_append, Hl.
  change (list_ascii_of_string "/") with [PosixPath.slash].
  rewrite !rev_app_distr.
  replace ((rev (list_ascii_of_string leaf) ++ rev [PosixPath.slash]) ++ rev [x] ++ rev l)
    with (rev (list_ascii_of_string leaf) ++ PosixPath.slash :: x :: rev l)
    by (simpl; now rewrite <- app_assoc).
  rewrite drop_last_part_rev_app
    by (apply Forall_rev; now apply contains_forall).
  change (PosixPath.rstrip_slash_rev (PosixPath.slash :: x :: rev l))
    with (if Ascii.eqb x "/" then PosixPath.rstrip_slash_rev (rev l) else x :: rev l).
  rewrite Hx.
  change (rev (x :: rev l)) with (rev (rev l) ++ [x]).
  rewrite rev_involutive, <- Hl.
  apply string_of_list_ascii_of_string.
Qed.

(** ** Storing a temporary file *)













(** ** What the file operations leave alone *)

Lemma same_env_refl (w : World) : same_env w w.
Proof. repeat split. Qed.






Lemma abs_normal_absolute (root rest : string) :
  abs_normal root = true -> PyStr.startswith "/" (root +:+ rest) = true.
Proof.
  intros H. destruct (abs_normal_parts root H) as (parts & _ & _ & _ & ->).
  unfold PyStr.startswith. rewrite append_assoc.
  change ("/" +:+ PyStr.join "/" parts +:+ rest)
    with (String "/" (PyStr.join "/" parts +:+ rest)).
  cbn. destruct (PyStr.join "/" parts +:+ rest); reflexivity.
Qed.

(** [os.path.join] keeps an absolute second argument: an absolute file name
    resolves to itself. *)
Lemma local_path_absolute (w : World) (p : string) :
  PyStr.startswith "/" p = true -> local_path w p = p.
Proof. intros H. unfold local_path, PosixPath.join. now rewrite H. Qed.

Lemma stored_path_absolute (w : World) (name ext : string) :
  abs_normal (output_dir w) = true ->
  local_path w (stored_path w name ext) = stored_path w name ext.
Proof.
  intros H. apply local_path_absolute. unfold stored_path.
  now apply abs_normal_absolute.
Qed.


(** * Further properties of the module *)

(** ** Storing a temporary file *)











(** ** Deleting *)

(** X6. [delete_output_file] touches one path only: whatever it returns
    or raises, every other path, the object store and the settings are as
    before; no remote copy is ever removed. *)
Theorem delete_output_file_frame (w w' : World) (filename : string) (r : exn + bool) :
  delete_output_file filename w = (r, w') ->
  s3_objects w' = s3_objects w /\
  output_dir w' = output_dir w /\
  undeletable w' = undeletable w /\
  forall q, q <> local_path w filename -> lookup_node q w' = lookup_node q w.
Proof.
  unfold delete_output_file. unfold_run.
  set (p := PosixPath.join _ _).
  destruct (PosixPath.path_ok p) eqn:Hok;
    destruct (fs w !! p) as [[c|]|] eqn:Hnode;
    destruct (bool_decide (p ∈ undeletable w)) eqn:Hden;
    repeat (progress (simpl; rewrite ?Hnode, ?Hden));
    intros H; inversion H; subst; simpl; repeat split;
    intros q Hq; simpl; try reflexivity;
    now rewrite lookup_delete_ne by congruence.
Qed.

Lemma delete_output_file_frame_witness :
  exists w',
    delete_output_file "2024-03-21/render1.png" world_one_file = (inr true, w') /\
    s3_objects w' = s3_objects world_one_file /\
    lookup_node "/tmp/other.png" w' = lookup_node "/tmp/other.png" world_one_file.
Proof.
  eexists. split; [vm_compute; reflexivity|].
  match goal with |- s3_objects ?w' = _ /\ _ =>
    destruct (delete_output_file_frame world_one_file w' "2024-03-21/render1.png" (inr true))
      as (Hs3 & _ & _ & Hq); [vm_compute; reflexivity|]
  end.
  split; [exact Hs3|]. apply Hq. vm_compute. discriminate.
Defined.



(** ** Reading back *)

(** X8. Both conversions only read: whatever they return or raise, the
    files, the object store and the settings are as before, and a second
    call gives the same result as the first. *)
Theorem readback_is_read_only `{pil : PIL} (w : World) (filename : option string) :
  let after_bytes := snd (output_file_to_bytesimg filename w) in
  let after_b64 := snd (output_file_to_base64img filename w) in
  (fs after_bytes = fs w /\ s3_objects after_bytes = s3_objects w) /\
  (fs after_b64 = fs w /\ s3_objects after_b64 = s3_objects w) /\
  fst (output_file_to_bytesimg filename after_bytes)
    = fst (output_file_to_bytesimg filename w) /\
  fst (output_file_to_base64img filename after_b64)
    = fst (output_file_to_base64img filename w).
Proof.
  destruct filename as [filename|]; [|repeat split].
  unfold output_file_to_bytesimg, output_file_to_base64img. unfold_run.
  set (kind := if negb _ then "png" else _).
  destruct (PosixPath.path_ok (PosixPath.join (output_dir w) filename)) eqn:Hok;
    destruct (fs w !! PosixPath.join (output_dir w) filename) as [[c|]|] eqn:Hnode;
    repeat (progress (simpl; rewrite ?Hnode, ?Hok));
    try (repeat split; fail).
  destruct (decode_image c) as [img|] eqn:Hdec;
    repeat (progress (simpl; rewrite ?Hnode, ?Hok, ?Hdec));
    try (repeat split; fail).
  destruct (encode_image img "PNG") eqn:Hpng;
    destruct (encode_image img (PyStr.upper kind)) eqn:Hkind;
    repeat (progress (simpl; rewrite ?Hnode, ?Hok, ?Hdec, ?Hpng, ?Hkind));
    repeat split.
Qed.

(** ** Uploading *)

Lemma upload_to_minio_env (w w' : World) (filename : string) (r : exn + string) :
  upload_to_minio filename w = (r, w') ->
  output_dir w' = output_dir w /\ s3_fault w' = s3_fault w /\
  undeletable w' = undeletable w.
Proof.
  unfold upload_to_minio. unfold_run.
  set (p := PosixPath.join _ _).
  destruct (fs w !! p) as [[c|]|]; simpl;
    [destruct (s3_fault w) as [e|] eqn:Hfault; simpl;
       [destruct (is_upload_error e); simpl|] | |];
    intros H; inversion H; subst; simpl; repeat split; assumption.
Qed.

(** X9. Only [NoCredentialsError] and [ClientError] are logged: any other
    fault of the object store reaches the caller as it is, with no log entry;
    the upload request is the last thing the call did, and nothing is
    stored. *)
Theorem upload_to_minio_other_fault_not_logged (w : World) (filename : string)
    (c : list Byte.byte) (e : exn) :
  lookup_node (local_path w filename) w = Some (File c) ->
  s3_fault w = Some e ->
  is_upload_error e = false ->
  exists w',
    upload_to_minio filename w = (inl e, w') /\
    trace w' =
      trace w ++
      [EvClock;
       EvUpload (local_path w filename) (BUCKET_NAME (infra_settings w))
         (strftime_ymd (today w) +:+ "/" +:+ PyStr.last_item (PyStr.split "/" filename))] /\
    s3_objects w' = s3_objects w.
Proof.
  unfold upload_to_minio. unfold_run.
  set (p := PosixPath.join _ _).
  intros Hnode Hfault Herr.
  repeat (progress (simpl; rewrite ?Hnode, ?Hfault, ?Herr)).
  eexists. split; [reflexivity|]. simpl. rewrite <- app_assoc. split; reflexivity.
Qed.

Lemma upload_to_minio_other_fault_not_logged_witness :
  exists w',
    upload_to_minio "2024-03-21/render1.png"
      (mkWorld "/app/outputs/files" sample_settings (mkDate 2024 3 22)
         {[ "/app/outputs/files/2024-03-21/render1.png" := File sample_bytes ]}
         ∅ (Some (Raised S3UploadFailedError "Failed to upload")) ∅ [])
    = (inl (Raised S3UploadFailedError "Failed to upload"), w') /\
    s3_objects w' = ∅.
Proof.
  destruct (upload_to_minio_other_fault_not_logged
              (mkWorld "/app/outputs/files" sample_settings (mkDate 2024 3 22)
                 {[ "/app/outputs/files/2024-03-21/render1.png" := File sample_bytes ]}
                 ∅ (Some (Raised S3UploadFailedError "Failed to upload")) ∅ [])
              "2024-03-21/render1.png" sample_bytes
              (Raised S3UploadFailedError "Failed to upload"))
    as (w' & Hrun & _ & Hobj); try (vm_compute; reflexivity).
  exists w'. split; [exact Hrun | exact Hobj].
Defined.

(** X10. Uploading again on the same day is idempotent: after a
    successful upload, in every world of the same day and settings where the
    local file is unchanged, the object store answers without fault and holds
    what the first upload left, a second upload of the same name succeeds
    with the same URL and leaves the object store as the first one left it;
    the world right after the first upload is such a world. *)
Theorem upload_to_minio_idempotent (w w1 w2 : World) (filename url : string) :
  upload_to_minio filename w = (inr url, w1) ->
  today w2 = today w ->
  infra_settings w2 = infra_settings w ->
  output_dir w2 = output_dir w ->
  lookup_node (local_path w filename) w2 = lookup_node (local_path w filename) w ->
  s3_fault w2 = None ->
  s3_objects w2 = s3_objects w1 ->
  (exists w3,
     upload_to_minio filename w2 = (inr url, w3) /\ s3_objects w3 = s3_objects w1) /\
  (exists w3,
     upload_to_minio filename w1 = (inr url, w3) /\ s3_objects w3 = s3_objects w1).
Proof.
  intros Hrun Hday2 Hcfg2 Hod2 Hnode2 Hfault2 Hobj2.
  destruct (upload_to_minio_env _ _ _ _ Hrun) as (Hod & Hfault & _).
  destruct (upload_to_minio_outcome w filename)
    as (w' & Hout & Hfs & Hday & Hcfg & Hobj & _).
  cbv zeta in *. rewrite Hrun in Hout. inversion Hout as [[Hres Hw]]. subst w'.
  assert (Hagain : forall v,
            today v = today w -> infra_settings v = infra_settings w ->
            output_dir v = output_dir w ->
            lookup_node (local_path w filename) v = lookup_node (local_path w filename) w ->
            s3_fault v = s3_fault w -> s3_objects v = s3_objects w1 ->
            exists w3, upload_to_minio filename v = (inr url, w3) /\
                       s3_objects w3 = s3_objects w1).
  { intros v Hd Hc Ho Hn Hf Hs.
    destruct (upload_to_minio_outcome v filename)
      as (w3 & Hout3 & _ & _ & _ & Hobj3 & _).
    cbv zeta in *.
    unfold local_path in *. rewrite Ho, Hn, Hd, Hc, Hf, Hs in *.
    destruct (lookup_node (PosixPath.join (output_dir w) filename) w) as [[c|]|];
      try discriminate.
    destruct (s3_fault w); try discriminate.
    exists w3. rewrite Hout3, <- Hres. split; [reflexivity|].
    rewrite Hobj3, Hobj. apply insert_insert_eq. }
  assert (Hnofault : s3_fault w = None).
  { destruct (lookup_node (local_path w filename) w) as [[c|]|]; try discriminate.
    destruct (s3_fault w); [discriminate | reflexivity]. }
  split.
  - apply Hagain; try assumption. congruence.
  - apply Hagain; try assumption; try reflexivity.
    unfold lookup_node. now rewrite Hfs.
Qed.

Lemma upload_to_minio_idempotent_witness :
  exists url w1 w2,
    upload_to_minio "2024-03-21/render1.png" world_one_file = (inr url, w1) /\
    upload_to_minio "2024-03-21/render1.png" w1 = (inr url, w2) /\
    s3_objects w2 = s3_objects w1.
Proof.
  exists "http://minio:9000/2024-03-22/render1.png",
         (snd (upload_to_minio "2024-03-21/render1.png" world_one_file)).
  assert (Hrun : upload_to_minio "2024-03-21/render1.png" world_one_file
                 = (inr "http://minio:9000/2024-03-22/render1.png",
                    snd (upload_to_minio "2024-03-21/render1.png" world_one_file)))
    by (vm_compute; reflexivity).
  destruct (upload_to_minio_idempotent world_one_file _
              (snd (upload_to_minio "2024-03-21/render1.png" world_one_file)) _ _ Hrun)
    as [(w2 & Hagain & Hobj) _]; try (vm_compute; reflexivity).
  exists w2. split; [exact Hrun|]. split; assumption.
Defined.

(** X11. The remote key ignores the directory of a name: two files with
    the same base name, uploaded on the same day from different directories,
    get the same URL, and the second upload replaces the object of the
    first. *)
Theorem upload_to_minio_same_basename_collides (w w1 w2 : World)
    (dir1 dir2 b url1 url2 : string) (c2 : list Byte.byte) :
  no_slash b = true ->
  lookup_node (local_path w (dir2 +:+ "/" +:+ b)) w = Some (File c2) ->
  upload_to_minio (dir1 +:+ "/" +:+ b) w = (inr url1, w1) ->
  upload_to_minio (dir2 +:+ "/" +:+ b) w1 = (inr url2, w2) ->
  url1 = url2 /\
  s3_objects w2 !! (strftime_ymd (today w) +:+ "/" +:+ b) = Some c2.
Proof.
  intros Hb Hnode2 Hrun1 Hrun2.
  destruct (upload_to_minio_env _ _ _ _ Hrun1) as (Hod & Hfault & _).
  destruct (upload_to_minio_outcome w (dir1 +:+ "/" +:+ b))
    as (w' & Hout & Hfs & Hday & Hcfg & _).
  cbv zeta in *. rewrite Hrun1 in Hout. inversion Hout as [[Hres Hw]]. subst w'.
  destruct (upload_to_minio_outcome w1 (dir2 +:+ "/" +:+ b))
    as (w'' & Hout2 & _ & _ & _ & Hobj2 & _).
  cbv zeta in *. rewrite Hrun2 in Hout2. inversion Hout2 as [[Hres2 Hw2]]. subst w''.
  rewrite !(basename_of_path _ b Hb) in *.
  unfold local_path, lookup_node in *. rewrite Hod, Hfs, Hday, Hcfg, Hfault in *.
  rewrite Hnode2 in *.
  destruct (fs w !! PosixPath.join (output_dir w) (dir1 +:+ "/" +:+ b)) as [[c1|]|];
    try discriminate.
  destruct (s3_fault w); try discriminate.
  inversion Hres. inversion Hres2. split; [reflexivity|].
  rewrite Hobj2. apply lookup_insert_eq.
Qed.

Lemma upload_to_minio_same_basename_collides_witness :
  exists url w1 w2,
    upload_to_minio ("2024-03-20" +:+ "/" +:+ "a.png") world_two_files = (inr url, w1) /\
    upload_to_minio ("2024-03-21" +:+ "/" +:+ "a.png") w1 = (inr url, w2) /\
    s3_objects w2 !! (strftime_ymd (mkDate 2024 3 22) +:+ "/" +:+ "a.png")
      = Some [Byte.x02; Byte.x03].
Proof.
  set (w1 := snd (upload_to_minio ("2024-03-20" +:+ "/" +:+ "a.png") world_two_files)).
  set (w2 := snd (upload_to_minio ("2024-03-21" +:+ "/" +:+ "a.png") w1)).
  assert (Hrun1 : upload_to_minio ("2024-03-20" +:+ "/" +:+ "a.png") world_two_files
                  = (inr "http://minio:9000/2024-03-22/a.png", w1))
    by (vm_compute; reflexivity).
  assert (Hrun2 : upload_to_minio ("2024-03-21" +:+ "/" +:+ "a.png") w1
                  = (inr "http://minio:9000/2024-03-22/a.png", w2))
    by (vm_compute; reflexivity).
  exists "http://minio:9000/2024-03-22/a.png", w1, w2.
  split; [exact Hrun1|]. split; [exact Hrun2|].
  refine (proj2 (upload_to_minio_same_basename_collides world_two_files w1 w2
                   "2024-03-20" "2024-03-21" "a.png" _ _ [Byte.x02; Byte.x03]
                   eq_refl _ Hrun1 Hrun2)).
  vm_compute. reflexivity.
Defined.

(** ** Remote URLs *)

Lemma digit_inj (a b : N) : digit a = digit b -> (a mod 10 = b mod 10)%N.
Proof.
  unfold digit. intros H.
  apply (f_equal N_of_ascii) in H.
  pose proof (N.mod_lt a 10 ltac:(lia)) as Ha. pose proof (N.mod_lt b 10 ltac:(lia)) as Hb.
  set (x := (a mod 10)%N) in *. set (y := (b mod 10)%N) in *. clearbody x y.
  rewrite !N_ascii_embedding in H by lia. lia.
Qed.

(** A number is its last digit and the number of tens. *)
Lemma tens_and_units (y1 y2 : N) :
  (y1 / 10 = y2 / 10 -> y1 mod 10 = y2 mod 10 -> y1 = y2)%N.
Proof.
  intros Hq Hr.
  rewrite (N.div_mod y1 10), (N.div_mod y2 10) by discriminate.
  now rewrite Hq, Hr.
Qed.

Lemma two_digits (m1 m2 : N) :
  (m1 < 100 -> m2 < 100 ->
   (m1 / 10) mod 10 = (m2 / 10) mod 10 -> m1 mod 10 = m2 mod 10 -> m1 = m2)%N.
Proof.
  intros H1 H2 Ht Hu. apply tens_and_units; [|exact Hu].
  rewrite !N.mod_small in Ht; [exact Ht | |];
    apply N.Div0.div_lt_upper_bound; assumption.
Qed.

Lemma four_digits (y1 y2 : N) :
  (y1 < 10000 -> y2 < 10000 ->
   (y1 / 1000) mod 10 = (y2 / 1000) mod 10 ->
   (y1 / 100) mod 10 = (y2 / 100) mod 10 ->
   (y1 / 10) mod 10 = (y2 / 10) mod 10 ->
   y1 mod 10 = y2 mod 10 -> y1 = y2)%N.
Proof.
  intros H1 H2 Ha Hb Hc Hd.
  apply tens_and_units; [|exact Hd].
  apply tens_and_units; [|exact Hc].
  rewrite !N.Div0.div_div. change (10 * 10)%N with 100%N.
  apply tens_and_units; [|exact Hb].
  rewrite !N.Div0.div_div. change (100 * 10)%N with 1000%N.
  rewrite !N.mod_small in Ha; [exact Ha | |];
    apply N.Div0.div_lt_upper_bound; assumption.
Qed.

Lemma strftime_ymd_inj (d1 d2 : Date) :
  valid_date d1 -> valid_date d2 ->
  strftime_ymd d1 = strftime_ymd d2 -> d1 = d2.
Proof.
  destruct d1 as [y1 m1 a1], d2 as [y2 m2 a2].
  unfold valid_date, strftime_ymd. cbn [year month day].
  intros (Hy1 & Hm1 & Ha1) (Hy2 & Hm2 & Ha2) H.
  inversion H as [[Hd1 Hd2 Hd3 Hd4 Hd5 Hd6 Hd7 Hd8]].
  apply digit_inj in Hd1, Hd2, Hd3, Hd4, Hd5, Hd6, Hd7, Hd8.
  f_equal.
  - now apply four_digits.
  - now apply two_digits.
  - now apply two_digits.
Qed.

Lemma append_inj_same_length (a b r1 r2 : string) :
  String.length a = String.length b -> a +:+ r1 = b +:+ r2 -> a = b.
Proof.
  revert b. induction a as [|x a IH]; intros [|y b] Hlen H; try discriminate.
  - reflexivity.
  - rewrite !append_cons in H. inversion H; subst.
    f_equal. apply IH; [now inversion Hlen | assumption].
Qed.

Lemma strftime_length (d : Date) : String.length (strftime_ymd d) = 10.
Proof. reflexivity. Qed.

(** X12. The remote URL drifts with the date: for one name and one
    endpoint, [get_file_s3_url] gives different URLs on different days, so the
    URL derived on a later day is not the one an earlier upload returned. *)
Theorem get_file_s3_url_date_drift (w1 w2 : World) (filename : string) :
  valid_date (today w1) -> valid_date (today w2) ->
  infra_settings w1 = infra_settings w2 ->
  today w1 <> today w2 ->
  fst (get_file_s3_url (Some filename) w1) <> fst (get_file_s3_url (Some filename) w2).
Proof.
  intros Hv1 Hv2 Hcfg Hday. unfold get_file_s3_url. unfold_run.
  rewrite Hcfg.
  pose proof (strftime_length (today w1)) as Hlen1.
  pose proof (strftime_length (today w2)) as Hlen2.
  remember (strftime_ymd (today w1)) as d1 eqn:E1.
  remember (strftime_ymd (today w2)) as d2 eqn:E2.
  intros H. injection H as Hurl.
  apply String.app_inj in Hurl.
  change ("/" +:+ ?x) with (String "/" x) in Hurl. injection Hurl as Hdate.
  apply append_inj_same_length in Hdate; [|congruence].
  apply Hday. apply strftime_ymd_inj; congruence.
Qed.

Lemma get_file_s3_url_date_drift_witness :
  fst (get_file_s3_url (Some "2024-03-21/render1.png") world_one_file)
  <> fst (get_file_s3_url (Some "2024-03-21/render1.png")
            (mkWorld "/app/outputs/files" sample_settings (mkDate 2024 3 23) ∅ ∅ None ∅ [])).
Proof.
  apply get_file_s3_url_date_drift.
  - vm_compute. repeat split.
  - vm_compute. repeat split.
  - reflexivity.
  - vm_compute. discriminate.
Defined.

(** X13. With no endpoint configured, the default of [InfraSettings],
    no URL function fails or returns [None]: the f-string prints the missing
    endpoint as the word None in front of the key. *)
Theorem unset_endpoint_prints_none (w : World) (filename : string) :
  URL_S3 (infra_settings w) = None ->
  let key := strftime_ymd (today w) +:+ "/" +:+ PyStr.last_item (PyStr.split "/" filename) in
  fst (get_file_s3_url (Some filename) w) = inr (Some ("None/" +:+ key)) /\
  (forall url w', upload_to_minio filename w = (inr url, w') -> url = "None/" +:+ key).
Proof.
  intros Hnone key. split.
  - unfold get_file_s3_url. unfold_run. rewrite Hnone. reflexivity.
  - intros url w' Hrun.
    destruct (upload_to_minio_outcome w filename) as (w1 & Hout & _).
    cbv zeta in Hout. rewrite Hrun, Hnone in Hout. inversion Hout as [[Hres Hw]].
    destruct (lookup_node _ w) as [[c|]|]; try discriminate.
    destruct (s3_fault w); try discriminate.
    now inversion Hres.
Qed.

Lemma unset_endpoint_prints_none_witness :
  fst (get_file_s3_url (Some "2024-03-21/render1.png")
         (mkWorld "/app/outputs/files" (mkInfra None None None None)
            (mkDate 2024 3 22) ∅ ∅ None ∅ []))
  = inr (Some "None/2024-03-22/render1.png").
Proof.
  apply (proj1 (unset_endpoint_prints_none
                  (mkWorld "/app/outputs/files" (mkInfra None None None None)
                     (mkDate 2024 3 22) ∅ ∅ None ∅ [])
                  "2024-03-21/render1.png" eq_refl)).
Defined.

(** ** The output root *)

Lemma plain_part_kept (l : list string) :
  forallb plain_part l = true -> forallb PosixPath.kept_part l = true.
Proof.
  induction l as [|x l IH]; [reflexivity|]. simpl. unfold plain_part at 1.
  intros H. apply andb_true_iff in H as [Hx Hl].
  apply andb_true_iff in Hx as [Hx _]. apply andb_true_iff in Hx as [Hx _].
  now rewrite Hx, IH.
Qed.

Lemma plain_part_no_slash (l : list string) :
  forallb plain_part l = true ->
  Forall (fun x => PyStr.contains "/" x = false) l.
Proof.
  induction l as [|x l IH]; [constructor|]. simpl. unfold plain_part at 1, no_slash.
  intros H. apply andb_true_iff in H as [Hx Hl].
  apply andb_true_iff in Hx as [Hx _]. apply andb_true_iff in Hx as [_ Hx].
  apply negb_true_iff in Hx. constructor; auto.
Qed.

(** The loop of [normpath] keeps plain parts as they come. *)
Lemma normpath_fold_plain (rooted : bool) (l st : list string) :
  forallb plain_part l = true ->
  fold_left (OsPath.normpath_step rooted) l st = rev l ++ st.
Proof.
  revert st. induction l as [|x l IH]; intros st H; [reflexivity|].
  simpl in H. apply andb_true_iff in H as [Hx Hl].
  simpl. rewrite IH by assumption. rewrite <- app_assoc. simpl.
  f_equal. unfold OsPath.normpath_step.
  unfold plain_part, PosixPath.kept_part in Hx.
  apply andb_true_iff in Hx as [Hx Hdd]. apply andb_true_iff in Hx as [Hx _].
  apply andb_true_iff in Hx as [He Hd].
  apply negb_true_iff in He, Hd. rewrite He, Hd, Hdd. reflexivity.
Qed.

(** Two dot-dot components take back the two plain parts before them. *)
Lemma normpath_fold_up_two (l : list string) (pkg sub : string) (more : list string) :
  forallb plain_part (l ++ [pkg; sub]) = true ->
  forallb plain_part more = true ->
  rev (fold_left (OsPath.normpath_step true)
         ("" :: l ++ [pkg; sub; ".."; ".."] ++ more) [])
  = l ++ more.
Proof.
  intros Hl Hmore.
  change ("" :: l ++ [pkg; sub; ".."; ".."] ++ more)
    with ([""] ++ l ++ [pkg; sub; ".."; ".."] ++ more).
  replace (l ++ [pkg; sub; ".."; ".."] ++ more)
    with ((l ++ [pkg; sub]) ++ [".."; ".."] ++ more)
    by (now rewrite <- app_assoc).
  rewrite !fold_left_app.
  change (fold_left (OsPath.normpath_step true) [""] []) with (@nil string).
  rewrite forallb_app in Hl. apply andb_true_iff in Hl as [Hl Hps].
  rewrite (normpath_fold_plain true more) by assumption.
  rewrite (normpath_fold_plain true l) by assumption.
  rewrite (normpath_fold_plain true [pkg; sub]) by assumption.
  simpl in Hps. apply andb_true_iff in Hps as [Hp Hs].
  apply andb_true_iff in Hs as [Hs _].
  assert (Hnd : forall x, plain_part x = true -> String.eqb x ".." = false).
  { intros x Hx. unfold plain_part in Hx. apply andb_true_iff in Hx as [_ Hx].
    now apply negb_true_iff in Hx. }
  rewrite app_nil_r.
  change (rev [pkg; sub] ++ rev l) with (sub :: pkg :: rev l).
  change (fold_left (OsPath.normpath_step true) [".."; ".."] (sub :: pkg :: rev l))
    with (OsPath.normpath_step true
            (OsPath.normpath_step true (sub :: pkg :: rev l) "..") "..").
  assert (Hpop : forall top rest,
             plain_part top = true ->
             OsPath.normpath_step true (top :: rest) ".." = rest).
  { intros top rest Ht. unfold OsPath.normpath_step.
    change (String.eqb ".." "") with false. change (String.eqb ".." ".") with false.
    change (String.eqb ".." "..") with true. rewrite (Hnd top Ht). reflexivity. }
  rewrite !Hpop by assumption.
  now rewrite rev_app_distr, !rev_involutive.
Qed.

Lemma rooted_shape (l : list string) :
  l <> [] ->
  forallb PosixPath.kept_part l = true ->
  Forall (fun x => PyStr.contains "/" x = false) l ->
  exists x t, Ascii.eqb x "/" = false /\ "/" +:+ PyStr.join "/" l = String "/" (String x t).
Proof.
  intros Hne Hkept Hsep. destruct l as [|s rest]; [congruence|].
  simpl in Hkept. apply andb_true_iff in Hkept as [Hs _].
  destruct (kept_part_nonempty s Hs) as (a & s' & ->).
  inversion Hsep as [|? ? Ha _]; subst. simpl in Ha.
  apply orb_false_iff in Ha as [Ha _].
  destruct (join_head "/" a s' rest) as [t Ht].
  exists a, t. split; [exact Ha|]. now rewrite Ht.
Qed.

Lemma rooted_no_trailing_slash (l : list string) :
  l <> [] ->
  forallb PosixPath.kept_part l = true ->
  Forall (fun x => PyStr.contains "/" x = false) l ->
  PyStr.endswith_char "/" ("/" +:+ PyStr.join "/" l) = false.
Proof.
  intros Hne Hkept Hsep.
  destruct (rooted_shape l Hne Hkept Hsep) as (x & t & _ & Heq).
  pose proof (join_no_trailing_sep "/" l Hne Hsep Hkept) as Hend.
  change (String "/" "") with "/" in Hend.
  change ("/" +:+ PyStr.join "/" l) with (String "/" (PyStr.join "/" l)) in *.
  injection Heq as Heq. rewrite Heq in *. exact Hend.
Qed.

(** [os.path.join(a, b) == a + "/" + b] for a relative [b] and a non-empty
    [a] without trailing slash. *)
Lemma join_plain (a b : string) :
  a <> "" -> PyStr.endswith_char "/" a = false -> PyStr.startswith "/" b = false ->
  PosixPath.join a b = a +:+ "/" +:+ b.
Proof.
  intros Ha Hend Hb. unfold PosixPath.join, PosixPath.slash.
  apply String.eqb_neq in Ha. now rewrite Hb, Ha, Hend.
Qed.

Lemma rooted_join (l m : list string) :
  l <> [] -> m <> [] ->
  forallb PosixPath.kept_part l = true ->
  Forall (fun x => PyStr.contains "/" x = false) l ->
  PyStr.startswith "/" (PyStr.join "/" m) = false ->
  PosixPath.join ("/" +:+ PyStr.join "/" l) (PyStr.join "/" m)
  = "/" +:+ PyStr.join "/" (l ++ m).
Proof.
  intros Hl Hm Hkept Hsep Hrel.
  rewrite join_plain.
  - rewrite join_app by assumption. now rewrite !append_assoc.
  - discriminate.
  - now apply rooted_no_trailing_slash.
  - exact Hrel.
Qed.

Lemma abs_normal_rooted (l : list string) :
  l <> [] ->
  forallb PosixPath.kept_part l = true ->
  Forall (fun x => PyStr.contains "/" x = false) l ->
  abs_normal ("/" +:+ PyStr.join "/" l) = true.
Proof.
  intros Hne Hkept Hsep. unfold abs_normal.
  destruct l as [|s rest]; [congruence|].
  change ("/" +:+ PyStr.join "/" (s :: rest)) with (PyStr.join "/" ("" :: s :: rest)).
  rewrite (split_join "/" ("" :: s :: rest)); [exact Hkept | discriminate | now constructor].
Qed.

(** The output root of a module file [/<parts>/<pkg>/<sub>/<leaf>]. *)
Lemma compute_output_dir_shape (cwd : string) (parts : list string)
    (pkg sub leaf : string) :
  forallb plain_part (parts ++ [pkg; sub]) = true ->
  no_slash leaf = true ->
  let module_file := "/" +:+ PyStr.join "/" (parts ++ [pkg; sub; leaf]) in
  compute_output_dir cwd module_file = "/" +:+ PyStr.join "/" (parts ++ ["outputs"; "files"]) /\
  abs_normal (compute_output_dir cwd module_file) = true.
Proof.
  intros Hplain Hleaf module_file.
  set (l := parts ++ [pkg; sub]) in *.
  assert (Hne : l <> []) by (unfold l; destruct parts; discriminate).
  pose proof (plain_part_kept l Hplain) as Hkept.
  pose proof (plain_part_no_slash l Hplain) as Hsep.
  unfold no_slash in Hleaf. apply negb_true_iff in Hleaf.
  (* the directory of the module file *)
  assert (Hfile : module_file = ("/" +:+ PyStr.join "/" l) +:+ "/" +:+ leaf).
  { unfold module_file, l.
    replace (parts ++ [pkg; sub; leaf]) with ((parts ++ [pkg; sub]) ++ [leaf])
      by (now rewrite <- app_assoc).
    rewrite join_app by (assumption || discriminate).
    now rewrite !append_assoc. }
  assert (Hdir : PosixPath.dirname module_file = "/" +:+ PyStr.join "/" l).
  { rewrite Hfile. apply dirname_of_child;
      [discriminate | now apply rooted_no_trailing_slash | exact Hleaf]. }
  (* the joined path *)
  set (up := l ++ [".."; ".."]).
  assert (Hup_kept : forallb PosixPath.kept_part (up ++ ["outputs"]) = true).
  { unfold up. rewrite !forallb_app, Hkept. reflexivity. }
  assert (Hup_sep : Forall (fun x => PyStr.contains "/" x = false) (up ++ ["outputs"])).
  { unfold up. rewrite !Forall_app. repeat split; [assumption| |]; repeat constructor. }
  assert (Hjoined :
    OsPath.join_all (PosixPath.dirname module_file) ["../.."; "outputs"; "files"]
    = "/" +:+ PyStr.join "/" (l ++ [".."; ".."; "outputs"; "files"])).
  { assert (Hup_ne : up <> []) by (unfold up; destruct l; discriminate).
    assert (Hup1_ne : up ++ ["outputs"] <> []) by (destruct up; discriminate).
    assert (Hk : forallb PosixPath.kept_part up = true).
    { rewrite forallb_app in Hup_kept. now apply andb_true_iff in Hup_kept as [H _]. }
    assert (Hs : Forall (fun x => PyStr.contains "/" x = false) up).
    { now apply Forall_app in Hup_sep as [H _]. }
    rewrite Hdir. unfold OsPath.join_all. cbn [fold_left].
    change "../.." with (PyStr.join "/" [".."; ".."]).
    rewrite rooted_join by (assumption || discriminate || reflexivity).
    fold up.
    change "outputs" with (PyStr.join "/" ["outputs"]) at 1.
    rewrite rooted_join by (assumption || discriminate || reflexivity).
    change "files" with (PyStr.join "/" ["files"]) at 1.
    rewrite rooted_join by (assumption || discriminate || reflexivity).
    unfold up. now rewrite <- !app_assoc. }
  (* its normal form *)
  assert (Hall_kept : forallb PosixPath.kept_part (l ++ [".."; ".."; "outputs"; "files"]) = true).
  { rewrite forallb_app, Hkept. reflexivity. }
  assert (Hall_sep : Forall (fun x => PyStr.contains "/" x = false)
                       (l ++ [".."; ".."; "outputs"; "files"])).
  { rewrite Forall_app. split; [assumption|]. repeat constructor. }
  assert (Hall_ne : l ++ [".."; ".."; "outputs"; "files"] <> []) by (destruct l; discriminate).
  assert (Hnorm :
    compute_output_dir cwd module_file
    = "/" +:+ PyStr.join "/" (parts ++ ["outputs"; "files"])).
  { unfold compute_output_dir, OsPath.abspath, OsPath.isabs. rewrite Hjoined.
    destruct (rooted_shape _ Hall_ne Hall_kept Hall_sep) as (x & t & Hx & Hshape).
    assert (Hsplit : PyStr.split "/" ("/" +:+ PyStr.join "/" (l ++ [".."; ".."; "outputs"; "files"]))
                     = "" :: l ++ [".."; ".."; "outputs"; "files"]).
    { destruct (l ++ [".."; ".."; "outputs"; "files"]) as [|s0 rest0] eqn:E; [congruence|].
      change ("/" +:+ PyStr.join "/" (s0 :: rest0)) with (PyStr.join "/" ("" :: s0 :: rest0)).
      apply (split_join "/" ("" :: s0 :: rest0)); [discriminate | now constructor]. }
    rewrite Hshape in *.
    assert (Hx' : "/"%char <> x).
    { intros <-. discriminate. }
    unfold PyStr.startswith.
    change (String.prefix "/" (String "/" (String x t)))
      with (if ascii_dec "/" "/" then String.prefix "" (String x t) else false).
    destruct (ascii_dec "/" "/") as [_|Hc]; [|congruence].
    cbn [String.prefix].
    unfold OsPath.normpath, PyStr.startswith. rewrite Hsplit.
    change (String.eqb (String "/" (String x t)) "") with false.
    change (String.prefix "/" (String "/" (String x t)))
      with (if ascii_dec "/" "/" then String.prefix "" (String x t) else false).
    change (String.prefix "//" (String "/" (String x t)))
      with (if ascii_dec "/" "/"
            then (if ascii_dec "/" x then String.prefix "" t else false) else false).
    destruct (ascii_dec "/" "/") as [_|Hc]; [|congruence].
    destruct (ascii_dec "/" x) as [Hc|_]; [congruence|].
    cbn [String.prefix andb negb].
    change (String.eqb "/" "") with false. cbn [negb].
    replace (l ++ [".."; ".."; "outputs"; "files"])
      with (parts ++ [pkg; sub; ".."; ".."] ++ ["outputs"; "files"])
      by (unfold l; now rewrite <- !app_assoc).
    rewrite normpath_fold_up_two by (assumption || reflexivity).
    destruct (parts ++ ["outputs"; "files"]) eqn:E; [destruct parts; discriminate|].
    reflexivity. }
  split; [exact Hnorm|]. rewrite Hnorm.
  apply abs_normal_rooted.
  - destruct parts; discriminate.
  - rewrite forallb_app. unfold l in Hkept. rewrite forallb_app in Hkept.
    apply andb_true_iff in Hkept as [Hk _]. now rewrite Hk.
  - rewrite Forall_app. unfold l in Hsep. apply Forall_app in Hsep as [Hs _].
    split; [assumption|]. repeat constructor.
Qed.

(** X14. For a module file [/<parts>/<pkg>/<sub>/<leaf>] the output root
    computed at import is [/<parts>/outputs/files], two levels above the
    directory of the module, whatever the working directory; it is an
    absolute normalised path. *)
Theorem compute_output_dir_of_module_file (cwd : string) (parts : list string)
    (pkg sub leaf : string) :
  forallb plain_part (parts ++ [pkg; sub]) = true ->
  no_slash leaf = true ->
  let module_file := "/" +:+ PyStr.join "/" (parts ++ [pkg; sub; leaf]) in
  compute_output_dir cwd module_file = "/" +:+ PyStr.join "/" (parts ++ ["outputs"; "files"]) /\
  abs_normal (compute_output_dir cwd module_file) = true.
Proof. exact (compute_output_dir_shape cwd parts pkg sub leaf). Qed.

Lemma compute_output_dir_of_module_file_witness :
  compute_output_dir "/srv" ("/" +:+ PyStr.join "/" (["app"] ++ ["fooocusapi"; "utils"; "file_utils.py"]))
  = "/" +:+ PyStr.join "/" (["app"] ++ ["outputs"; "files"]).
Proof.
  apply (proj1 (compute_output_dir_of_module_file "/srv" ["app"] "fooocusapi" "utils"
                  "file_utils.py" eq_refl eq_refl)).
Defined.

(** ** The type of a data URI *)

Lemma upper_lower_char (a : ascii) :
  PyStr.upper_char (PyStr.lower_char a) = PyStr.upper_char a.
Proof.
  destruct a as [[] [] [] [] [] [] [] []]; vm_compute; reflexivity.
Qed.

Lemma upper_lower (s : string) : PyStr.upper (PyStr.lower s) = PyStr.upper s.
Proof.
  unfold PyStr.upper, PyStr.lower.
  induction s as [|a s IH]; [reflexivity|].
  cbn [PyStr.map_chars]. now rewrite upper_lower_char, IH.
Qed.

Lemma mem_formats_cases (x : string) :
  PyStr.mem x ["png"; "jpg"; "webp"; "jpeg"] = true ->
  x = "png" \/ x = "jpg" \/ x = "webp" \/ x = "jpeg".
Proof.
  unfold PyStr.mem. cbn [existsb]. intros H.
  repeat (apply orb_true_iff in H as [H|H]; [apply String.eqb_eq in H; tauto|]).
  discriminate.
Qed.

Section DataUri.
Context `{pil : PIL}.

(** X16. Whatever the name of a decodable stored file, the encoder is
    asked for one of the four format names PNG, JPG, WEBP and JPEG only, and
    the type written in the data URI is, up to case, one of png, jpg, webp
    and jpeg; a name with another extension, or with none, is served as
    png. *)
Theorem base64_type_is_supported (w : World) (filename : string)
    (c : list Byte.byte) (img : Image) :
  PosixPath.path_ok (local_path w filename) = true ->
  lookup_node (local_path w filename) w = Some (File c) ->
  decode_image c = Some img ->
  exists kind,
    PyStr.mem (PyStr.lower kind) ["png"; "jpg"; "webp"; "jpeg"] = true /\
    In (PyStr.upper kind) ["PNG"; "JPG"; "WEBP"; "JPEG"] /\
    (PyStr.mem (PyStr.lower (PyStr.last_item (PyStr.split "." filename)))
       ["png"; "jpg"; "webp"; "jpeg"] = false -> kind = "png") /\
    fst (output_file_to_base64img (Some filename) w)
      = match encode_image img (PyStr.upper kind) with
        | inr data =>
            inr (Some ("data:image/" +:+ kind +:+ ";base64," +:+ Base64.b64encode data))
        | inl e => inl e
        end.
Proof.
  intros Hok Hnode Hdec.
  destruct (readback_present w filename c img Hok Hnode Hdec) as [_ Hb64].
  cbv zeta in Hb64.
  set (ext0 := PyStr.last_item (PyStr.split "." filename)) in *.
  destruct (PyStr.mem (PyStr.lower ext0) ["png"; "jpg"; "webp"; "jpeg"]) eqn:Hmem.
  - exists ext0. split; [exact Hmem|]. split; [|split; [discriminate | exact Hb64]].
    rewrite <- upper_lower.
    destruct (mem_formats_cases _ Hmem) as [-> | [-> | [-> | ->]]];
      vm_compute; tauto.
  - exists "png". split; [reflexivity|]. split; [vm_compute; tauto|].
    split; [reflexivity | exact Hb64].
Qed.

End DataUri.

Lemma base64_type_is_supported_witness :
  exists kind,
    PyStr.mem (PyStr.lower kind) ["png"; "jpg"; "webp"; "jpeg"] = true /\
    In (PyStr.upper kind) ["PNG"; "JPG"; "WEBP"; "JPEG"] /\
    fst (output_file_to_base64img (pil := sample_pil) (Some "2024-03-21/render1.png")
           world_one_file)
      = match encode_image (PIL := sample_pil) sample_bytes (PyStr.upper kind) with
        | inr data =>
            inr (Some ("data:image/" +:+ kind +:+ ";base64," +:+ Base64.b64encode data))
        | inl e => inl e
        end.
Proof.
  destruct (base64_type_is_supported (pil := sample_pil) world_one_file
              "2024-03-21/render1.png" sample_bytes sample_bytes)
    as (kind & Hmem & Hin & _ & Hres); try (vm_compute; reflexivity).
  exists kind. split; [exact Hmem|]. split; [exact Hin | exact Hres].
Defined.

(** ** Failures that are not turned into [None] or [Exception] *)



(** X18. Absence is the only thing the conversions answer with [None]:
    for a regular file whose bytes are not an image, both raise the error of
    [Image.open] to the caller. *)
Theorem readback_of_undecodable_file_raises `{pil : PIL} (w : World) (filename : string)
    (c : list Byte.byte) :
  PosixPath.path_ok (local_path w filename) = true ->
  lookup_node (local_path w filename) w = Some (File c) ->
  decode_image c = None ->
  fst (output_file_to_bytesimg (Some filename) w)
    = inl (Raised UnidentifiedImageError "cannot identify image file") /\
  fst (output_file_to_base64img (Some filename) w)
    = inl (Raised UnidentifiedImageError "cannot identify image file").
Proof.
  unfold output_file_to_bytesimg, output_file_to_base64img. unfold_run.
  intros Hok Hnode Hdec. rewrite Hok.
  repeat (progress (simpl; rewrite ?Hnode, ?Hdec)).
  split; reflexivity.
Qed.

Lemma readback_of_undecodable_file_raises_witness :
  fst (output_file_to_bytesimg (pil := sample_pil) (Some "2024-03-21/empty.png")
         (set_fs {[ "/app/outputs/files/2024-03-21/empty.png" := File [] ]} world_empty))
  = inl (Raised UnidentifiedImageError "cannot identify image file").
Proof.
  destruct (readback_of_undecodable_file_raises (pil := sample_pil)
              (set_fs {[ "/app/outputs/files/2024-03-21/empty.png" := File [] ]} world_empty)
              "2024-03-21/empty.png" []) as [Hbytes _];
    [vm_compute; reflexivity .. | exact Hbytes].
Defined.

(** ** Importing the module *)

(** X15. For a module file [/<parts>/<pkg>/<sub>/<leaf>], an import that
    succeeds has set the output root to [/<parts>/outputs/files], an absolute
    normalised path that is a directory afterwards; it has created, changed
    and removed no regular file; and importing again succeeds and changes no
    file, since an existing directory is accepted. *)
Theorem import_module_creates_output_dir (w w1 : World) (cwd : string)
    (parts : list string) (pkg sub leaf : string) :
  forallb plain_part (parts ++ [pkg; sub]) = true ->
  no_slash leaf = true ->
  let module_file := "/" +:+ PyStr.join "/" (parts ++ [pkg; sub; leaf]) in
  let root := "/" +:+ PyStr.join "/" (parts ++ ["outputs"; "files"]) in
  import_module cwd module_file w = (inr tt, w1) ->
  output_dir w1 = root /\
  abs_normal (output_dir w1) = true /\
  lookup_node root w1 = Some Dir /\
  (forall q c, lookup_node q w1 = Some (File c) <-> lookup_node q w = Some (File c)) /\
  exists w2, import_module cwd module_file w1 = (inr tt, w2) /\ fs w2 = fs w1.
Proof.
  intros Hplain Hleaf module_file root.
  destruct (compute_output_dir_shape cwd parts pkg sub leaf Hplain Hleaf) as [Hroot Habs].
  fold module_file root in Hroot, Habs.
  unfold import_module, bind. rewrite Hroot.
  unfold os_makedirs. unfold_run.
  destruct (PosixPath.path_ok root) eqn:Hok; [|discriminate].
  destruct (String.eqb root "") eqn:Hne; [discriminate|].
  unfold set_output_dir. simpl.
  destruct (fs w !! root) as [[c0|]|] eqn:Hnode; try discriminate;
    intros H; inversion H; subst; simpl;
    rewrite ?Hok, ?Hne; simpl; rewrite ?lookup_insert_eq, ?Hnode;
    (split; [reflexivity|]); (split; [now rewrite <- Hroot|]);
    (split; [reflexivity|]).
  - split; [reflexivity|]. eexists. split; reflexivity.
  - split.
    + intros q c. destruct (decide (root = q)) as [<-|Hq].
      * rewrite lookup_insert_eq, Hnode. split; discriminate.
      * now rewrite lookup_insert_ne.
    + eexists. split; reflexivity.
Qed.

Lemma import_module_creates_output_dir_witness :
  exists w1,
    import_module "/srv"
      ("/" +:+ PyStr.join "/" (["app"] ++ ["fooocusapi"; "utils"; "file_utils.py"]))
      (set_fs ∅ world_one_file) = (inr tt, w1) /\
    output_dir w1 = "/" +:+ PyStr.join "/" (["app"] ++ ["outputs"; "files"]) /\
    lookup_node ("/" +:+ PyStr.join "/" (["app"] ++ ["outputs"; "files"])) w1 = Some Dir.
Proof.
  set (w1 := snd (import_module "/srv"
      ("/" +:+ PyStr.join "/" (["app"] ++ ["fooocusapi"; "utils"; "file_utils.py"]))
      (set_fs ∅ world_one_file))).
  assert (Hrun : import_module "/srv"
      ("/" +:+ PyStr.join "/" (["app"] ++ ["fooocusapi"; "utils"; "file_utils.py"]))
      (set_fs ∅ world_one_file) = (inr tt, w1)) by (vm_compute; reflexivity).
  exists w1. split; [exact Hrun|].
  destruct (import_module_creates_output_dir (set_fs ∅ world_one_file) w1 "/srv" ["app"]
              "fooocusapi" "utils" "file_utils.py" eq_refl eq_refl Hrun)
    as (Hroot & _ & Hdir & _).
  split; assumption.
Defined.

(** ** The jpg extension *)

Section JpgFormat.
Context `{pil : PIL}.

(** C8 fails on the code for one of the four extensions it names: for an
    existing, decodable file whose name ends in [.jpg] the base64 conversion
    keeps the extension as supported and asks the encoder for the format name
    JPG; an encoder that knows this format as JPEG only, as Pillow does,
    rejects the name, and the conversion raises that error where the claim
    promises the data URI [data:image/jpg;base64,...]. *)
Theorem base64_of_jpg_file_raises (w : World) (stem : string) (c : list Byte.byte)
    (img : Image) (e : exn) :
  PosixPath.path_ok (local_path w (stem +:+ ".jpg")) = true ->
  lookup_node (local_path w (stem +:+ ".jpg")) w = Some (File c) ->
  decode_image c = Some img ->
  encode_image img "JPG" = inl e ->
  fst (output_file_to_base64img (Some (stem +:+ ".jpg")) w) = inl e.
Proof.
  intros Hok Hnode Hdec Henc.
  destruct (readback_present w (stem +:+ ".jpg") c img Hok Hnode Hdec) as [_ Hb64].
  cbv zeta in Hb64.
  change (stem +:+ ".jpg") with (stem +:+ String "." "jpg") in Hb64 at 2 3.
  rewrite split_app_sep, (split_no_sep "." "jpg" eq_refl), last_item_snoc in Hb64.
  change (PyStr.mem (PyStr.lower "jpg") ["png"; "jpg"; "webp"; "jpeg"]) with true in Hb64.
  cbv iota in Hb64. change (PyStr.upper "jpg") with "JPG" in Hb64.
  now rewrite Henc in Hb64.
Qed.

End JpgFormat.

Lemma base64_of_jpg_file_raises_witness :
  fst (output_file_to_base64img (pil := sample_pil) (Some ("2024-03-21/a" +:+ ".jpg"))
         (set_fs {[ "/app/outputs/files/2024-03-21/a.jpg" := File sample_bytes ]} world_empty))
  = inl (Raised KeyError "JPG").
Proof.
  apply (base64_of_jpg_file_raises (pil := sample_pil)
           (set_fs {[ "/app/outputs/files/2024-03-21/a.jpg" := File sample_bytes ]} world_empty)
           "2024-03-21/a" sample_bytes sample_bytes (Raised KeyError "JPG"));
    vm_compute; reflexivity.
Defined.
